(** * xpm-js, [lib/utils/xpack.js]: binary acquisition and package identity

    A shallow embedding of the two classes of [lib/utils/xpack.js]:

    - [ManifestId], the parser of a dependency descriptor and its
      renderings;
    - [Xpack], of which [downloadBinaries] and [cacheArchive] are modelled.

    JavaScript values are modelled by [jsval]; an object is a record whose
    fields hold [jsval]s ([JUndefined] for a missing property), the
    [platforms] object is a finite map.  Effects (logging, the cache store,
    the download, the removal of the destination, the extraction) are
    recorded in a trace; what the external collaborators answer is read
    from a [world]. *)

From Stdlib Require Import String Ascii ZArith List Lia DecimalString.
From Stdlib Require DecimalPos.
From stdpp Require Import gmap strings list.

Local Open Scope string_scope.
Local Open Scope Z_scope.

(** ** JavaScript values *)

Module Js.

(** The values a scalar property of a parsed JSON document can hold, with
    [JUndefined] for a property that is not there and [JNaN] for the
    not-a-number result of [parseInt].  [JNum z] is an integer-valued
    number; it stands for a number of the language only where a double is
    exact, that is for [z] of magnitude below 2^53. [to_string] and
    [parseInt] are those of the language for such [z]; beyond, a double
    rounds and, from 1e21, is printed with an exponent, which is not
    modelled. Strings are sequences of bytes, the UTF-8 text of a
    manifest. *)
Inductive jsval : Type :=
  | JUndefined
  | JNull
  | JBool (b : bool)
  | JNaN
  | JNum (z : Z)
  | JStr (s : string).

Definition nonempty (s : string) : bool :=
  match s with EmptyString => false | String _ _ => true end.

(** ToBoolean: what [if (v)], [!v] and [v || w] test. *)
Definition truthy (v : jsval) : bool :=
  match v with
  | JUndefined | JNull | JNaN => false
  | JBool b => b
  | JNum z => negb (z =? 0)
  | JStr s => nonempty s
  end.

(** [v || w] *)
Definition js_or (v w : jsval) : jsval := if truthy v then v else w.

(** ToString, as applied by template literals and by [+] on a string. *)
Definition to_string (v : jsval) : string :=
  match v with
  | JUndefined => "undefined"
  | JNull => "null"
  | JBool true => "true"
  | JBool false => "false"
  | JNaN => "NaN"
  | JNum z => NilZero.string_of_int (Z.to_int z)
  | JStr s => s
  end.

(** An array element or a property that may be missing. *)
Definition of_option (o : option string) : jsval :=
  match o with Some s => JStr s | None => JUndefined end.

(** The errors the modelled code can end with. [CliError] carries its
    message and the exit code of [CliExitCodes.ERROR]; [ExternalError] is
    a rejection that comes from a collaborator (cache store, transport,
    file system, decompressor). *)
Inductive exit_code : Type := ERROR_INPUT | ERROR_APPLICATION.

Inductive js_error : Type :=
  | CliError (message : string) (code : exit_code)
  | TypeError
  | ExternalError (what : string).

(** How a call ends: it returns, it throws, it never completes (an
    awaited promise that nobody settles), or an error is thrown outside
    of it, from an event handler, where nothing catches it: an uncaught
    exception, which ends the process. *)
Inductive completion (A : Type) : Type :=
  | Normal (a : A)
  | Throw (e : js_error)
  | Pending
  | Uncaught (e : js_error).
Arguments Normal {A} a.
Arguments Throw {A} e.
Arguments Pending {A}.
Arguments Uncaught {A} e.

(** *** Strings *)

(** [s.startsWith(p)] *)
Fixpoint startsWith (p s : string) : bool :=
  match p, s with
  | EmptyString, _ => true
  | String a p', String b s' => if Ascii.eqb a b then startsWith p' s' else false
  | String _ _, EmptyString => false
  end.

(** [s.endsWith(p)] for a one-character [p]. *)
Fixpoint endsWith (c : ascii) (s : string) : bool :=
  match s with
  | EmptyString => false
  | String a EmptyString => Ascii.eqb a c
  | String _ s' => endsWith c s'
  end.

(** [s.split(c)] for a one-character separator: every occurrence of [c]
    separates two elements, so the result has one element more than [s]
    has occurrences of [c]. *)
Fixpoint split (c : ascii) (s : string) : list string :=
  match s with
  | EmptyString => [EmptyString]
  | String a s' =>
      if Ascii.eqb a c then EmptyString :: split c s'
      else match split c s' with
           | h :: t => String a h :: t
           | [] => [String a EmptyString]
           end
  end.

(** Does [c] occur in [s]? *)
Fixpoint occurs (c : ascii) (s : string) : bool :=
  match s with
  | EmptyString => false
  | String a s' => if Ascii.eqb a c then true else occurs c s'
  end.

(** The text before the first [c] (all of [s] when there is none), and
    the text after it. *)
Fixpoint before (c : ascii) (s : string) : string :=
  match s with
  | EmptyString => EmptyString
  | String a s' => if Ascii.eqb a c then EmptyString else String a (before c s')
  end.

Fixpoint after (c : ascii) (s : string) : option string :=
  match s with
  | EmptyString => None
  | String a s' => if Ascii.eqb a c then Some s' else after c s'
  end.

(** *** [parseInt]

    [parseInt(v)] with no radix: ToString, leading white space dropped,
    an optional sign, an optional [0x]/[0X] prefix (radix 16, else 10), then
    the longest run of digits; no digit at all gives [NaN].  It never
    throws.  The value is that of the digits; the code rounds it to a
    double, which changes nothing below 2^53.

    White space is the white space and the line terminators of the
    language: TAB, LF, VT, FF, CR, SP and, in UTF-8, U+00A0, U+1680,
    U+2000 to U+200A, U+2028, U+2029, U+202F, U+205F, U+3000 and
    U+FEFF. [space_width] is the number of bytes of the white space
    character a string begins with, 0 when it begins with none. *)
Definition is_space (a : ascii) : bool :=
  let n := N_of_ascii a in
  ((9 <=? n) && (n <=? 13) || (n =? 32))%N.

Definition space_width (s : string) : nat :=
  match s with
  | EmptyString => 0
  | String a s' =>
      if is_space a then 1
      else
        match N_of_ascii a, s' with
        | 194%N, String b _ =>
            if (N_of_ascii b =? 160)%N then 2 else 0
        | 225%N, String b (String c _) =>
            if ((N_of_ascii b =? 154) && (N_of_ascii c =? 128))%N
            then 3 else 0
        | 226%N, String b (String c _) =>
            let c := N_of_ascii c in
            match N_of_ascii b with
            | 128%N =>
                if ((128 <=? c) && (c <=? 138) || (c =? 168) || (c =? 169)
                    || (c =? 175))%N
                then 3 else 0
            | 129%N => if (c =? 159)%N then 3 else 0
            | _ => 0
            end
        | 227%N, String b (String c _) =>
            if ((N_of_ascii b =? 128) && (N_of_ascii c =? 128))%N
            then 3 else 0
        | 239%N, String b (String c _) =>
            if ((N_of_ascii b =? 187) && (N_of_ascii c =? 191))%N
            then 3 else 0
        | _, _ => 0
        end
  end.

Fixpoint drop_bytes (n : nat) (s : string) : string :=
  match n, s with
  | S n', String _ s' => drop_bytes n' s'
  | _, _ => s
  end.

(** At most [fuel] white space characters are dropped; the length of the
    string is fuel enough. *)
Fixpoint trim_start_fuel (fuel : nat) (s : string) : string :=
  match fuel with
  | O => s
  | S fuel' =>
      match space_width s with
      | O => s
      | width => trim_start_fuel fuel' (drop_bytes width s)
      end
  end.

Definition trim_start (s : string) : string :=
  trim_start_fuel (String.length s) s.

Definition digit_value (a : ascii) : option Z :=
  let n := Z.of_N (N_of_ascii a) in
  if (48 <=? n) && (n <=? 57) then Some (n - 48)
  else if (97 <=? n) && (n <=? 122) then Some (n - 87)
  else if (65 <=? n) && (n <=? 90) then Some (n - 55)
  else None.

Definition digit_in (radix : Z) (a : ascii) : option Z :=
  match digit_value a with
  | Some d => if d <? radix then Some d else None
  | None => None
  end.

(** The value of the longest prefix of digits, [acc] being the value of
    the digits read so far ([None] before the first). *)
Fixpoint digits (radix : Z) (acc : option Z) (s : string) : option Z :=
  match s with
  | EmptyString => acc
  | String a s' =>
      match digit_in radix a with
      | Some d => digits radix (Some (default 0 acc * radix + d)) s'
      | None => acc
      end
  end.

Definition parseInt (v : jsval) : jsval :=
  let s := trim_start (to_string v) in
  let '(sign, s) :=
    match s with
    | String "-" s' => (-1, s')
    | String "+" s' => (1, s')
    | _ => (1, s)
    end in
  let '(radix, s) :=
    match s with
    | String "0" (String "x" s') | String "0" (String "X" s') => (16, s')
    | _ => (10, s)
    end in
  match digits radix None s with
  | Some n => JNum (sign * n)
  | None => JNaN
  end.

(** *** [Buffer]

    [Buffer.from(s, 'hex')] for a string [s], as in the Node.js releases
    the package is tested with (8, 10, 12): pairs of hexadecimal digits
    are decoded from the left, and decoding stops, keeping what was
    decoded, at the first pair that is incomplete or has a character that
    is not a hexadecimal digit. No error is raised. *)
Definition unhex (a : ascii) : option Z := digit_in 16 a.

Fixpoint hex_decode (s : string) : list Z :=
  match s with
  | String a (String b s') =>
      match unhex a, unhex b with
      | Some x, Some y => Z.lor (Z.shiftl x 4) y :: hex_decode s'
      | _, _ => []
      end
  | _ => []
  end.

(** [buff.toString('base64')]: the standard alphabet, padded with [=]. *)
Definition base64_alphabet : string :=
  "ABCDEFGHIJKLMNOPQRSTUVWXYZabcdefghijklmnopqrstuvwxyz0123456789+/".

Definition base64_char (n : Z) : string :=
  match String.get (Z.to_nat n) base64_alphabet with
  | Some a => String a EmptyString
  | None => EmptyString
  end.

Fixpoint base64 (bytes : list Z) : string :=
  match bytes with
  | [] => ""
  | [a] =>
      base64_char (Z.shiftr a 2)
      +:+ base64_char (Z.shiftl (Z.land a 3) 4) +:+ "=="
  | [a; b] =>
      base64_char (Z.shiftr a 2)
      +:+ base64_char (Z.lor (Z.shiftl (Z.land a 3) 4) (Z.shiftr b 4))
      +:+ base64_char (Z.shiftl (Z.land b 15) 2) +:+ "="
  | a :: b :: c :: rest =>
      base64_char (Z.shiftr a 2)
      +:+ base64_char (Z.lor (Z.shiftl (Z.land a 3) 4) (Z.shiftr b 4))
      +:+ base64_char (Z.lor (Z.shiftl (Z.land b 15) 2) (Z.shiftr c 6))
      +:+ base64_char (Z.land c 63) +:+ base64 rest
  end.

End Js.

Import Js.

(** ** ManifestId *)

Module ManifestId.

(** The two properties of the manifest the constructor reads. *)
Record manifest : Type := {
  _from : jsval;
  manifest_version : jsval
}.

(** The object the constructor builds; [scope] stays [JUndefined] when the
    constructor does not assign it. *)
Record t : Type := {
  scope : jsval;
  name : jsval;
  version : jsval
}.

(** [new ManifestId(manifest)].  A method call or an index on [undefined]
    (and [startsWith] on a value that is not a string) is a TypeError. *)
Definition constructor (m : manifest) : completion t :=
  match _from m with
  | JStr id =>
      if startsWith "@" id then
        let arr := split "/" id in
        match arr !! 1%nat with
        | Some seg =>
            let arr2 := split "@" seg in
            Normal {| scope := of_option (arr !! 0%nat);
                      name := of_option (arr2 !! 0%nat);
                      version := js_or (of_option (arr2 !! 1%nat))
                                       (manifest_version m) |}
        | None => Throw TypeError
        end
      else
        let arr2 := split "@" id in
        Normal {| scope := JUndefined;
                  name := of_option (arr2 !! 0%nat);
                  version := js_or (of_option (arr2 !! 1%nat))
                                   (manifest_version m) |}
  | _ => Throw TypeError
  end.

Definition getScopedName (i : t) : string :=
  if truthy (scope i)
  then to_string (scope i) +:+ "/" +:+ to_string (name i)
  else to_string (name i).

Definition getFullName (i : t) : string :=
  if truthy (scope i)
  then to_string (scope i) +:+ "/" +:+ to_string (name i)
         +:+ "@" +:+ to_string (version i)
  else to_string (name i) +:+ "@" +:+ to_string (version i).

(** *** The parsing algorithm in the words of the specification

    "Split on the first [c]" gives the text before the first [c] and the
    whole text after it. *)
Definition split_first (c : ascii) (s : string) : string * option string :=
  (before c s, after c s).

Definition version_or (versionPart : option string) (fallback : jsval) : jsval :=
  match versionPart with
  | Some v => if nonempty v then JStr v else fallback
  | None => fallback
  end.

(** [None] where the specification's algorithm has no second part to go
    on (a scoped descriptor without [/]). *)
Definition spec_parse (id : string) (fallback : jsval) : option t :=
  if startsWith "@" id then
    match split_first "/" id with
    | (scopePart, Some rest) =>
        let '(namePart, versionPart) := split_first "@" rest in
        Some {| scope := JStr scopePart; name := JStr namePart;
                version := version_or versionPart fallback |}
    | (_, None) => None
    end
  else
    let '(namePart, versionPart) := split_first "@" id in
    Some {| scope := JUndefined; name := JStr namePart;
            version := version_or versionPart fallback |}.

(** Whether a descriptor has no separator beyond those the parsing
    algorithm looks for: at most one [@] in the text that holds the name
    and the version, and, for a scoped descriptor, exactly one [/]. *)
Definition single_at (s : string) : bool :=
  match after "@" s with
  | Some v => negb (occurs "@" v)
  | None => true
  end.

Definition well_separated (id : string) : bool :=
  if startsWith "@" id then
    match after "/" id with
    | Some rest => negb (occurs "/" rest) && single_at rest
    | None => false
    end
  else single_at id.

(** A part of a descriptor as the round-trip property takes it: not
    empty, and free of [@] and [/]. *)
Definition plain_part (s : string) : bool :=
  nonempty s && negb (occurs "@" s) && negb (occurs "/" s).

End ManifestId.


(** ** Xpack *)

Module Xpack.

(** *** The manifest ([package.json])

    An object is modelled up to the properties the code reads.  [None] for
    [xpack], [binaries] or [platforms] stands for a value that is falsy
    (missing, most of the time); a value of [platforms] that has no
    property for the platform key is a map without that key. *)
Record platform_entry : Type := {
  fileName : jsval;
  entry_baseUrl : jsval;
  sha256 : jsval;
  sha512 : jsval;
  entry_skip : jsval
}.

Record binaries : Type := {
  baseUrl : jsval;
  destination : jsval;
  skip : jsval;
  platforms : option (gmap string platform_entry)
}.

Record xpack_section : Type := {
  xpack_binaries : option binaries
}.

Record package_json : Type := {
  name : jsval;
  version : jsval;
  xpack : option xpack_section
}.

(** *** Effects *)

Inductive level : Type := Trace | Debug | Info | Warn.

(** [path.join(a, b, ...)], kept as the list of its arguments. *)
Record fs_path : Type := path_join { segments : list string }.

(** What [cacache.get.info] resolves to when the key is known. *)
Record cache_entry : Type := { path : string; integrity : string }.

(** The options object given to [cacache.put.stream]. *)
Record put_opts : Type := { opts_integrity : jsval }.

Inductive effect : Type :=
  | ReadFile (p : fs_path)
  | Log (l : level) (message : string)
  (** a log line made of a text followed by a path *)
  | LogPath (l : level) (message : string) (p : fs_path)
  | LogError (l : level) (e : js_error)
  | CacheGetInfo (cachePath key : string)
  | RequestPipePutStream (url cachePath key : string) (opts : put_opts)
  | Rimraf (p : fs_path)
  | Decompress (input : string) (output : fs_path) (strip : jsval).

(** The events of a download.  [request.get(url).pipe(dest)] returns
    [dest], the stream of [cacache.put.stream]: the four handlers of lines
    244-260 are all registered on that stream, in the order of the source,
    and none is registered on the request.

    - [PutIntegrity], [PutError], [PipeClose]: the cache-write stream emits
      ['integrity'], ['error'], ['close']. An ['error'] runs both of its
      handlers, that of line 248 and then that of line 257.
    - [PipeError]: the handler of line 257 run on its own. No event of the
      two streams does that; it is there so that every order of calls of
      the handlers is covered.
    - [TransportError]: the request emits ['error'] (the host is not
      found, the connection is reset). None of the four handlers listens
      for it: an ['error'] event without a handler is an uncaught
      exception. *)
Inductive stream_event : Type :=
  | PutIntegrity (value : string)
  | PutError (what : string)
  | PipeClose
  | PipeError (what : string)
  | TransportError (what : string).

(** What an asynchronous call to a collaborator ends with: it resolves,
    it rejects, or it never settles. *)
Inductive external (A : Type) : Type :=
  | Ok (a : A)
  | Failed (what : string)
  | Never.
Arguments Ok {A} a.
Arguments Failed {A} what.
Arguments Never {A}.

(** *** The world: what the collaborators answer *)
Record world : Type := {
  process_platform : string;
  sysArch : string;
  (** the parsed content of [package.json]; [None] when it cannot be read
      or parsed, or is not an object *)
  package_json_file : option package_json;
  (** the first and the second answer of [cacache.get.info] *)
  get_info_first : external (option cache_entry);
  get_info_second : external (option cache_entry);
  (** the events of the download, in the order they are emitted *)
  download_events : list stream_event;
  rimraf_result : external unit;
  (** the number of files [decompress] resolves with *)
  decompress_result : external nat
}.

(** *** A trace-writing error monad *)
Definition M (A : Type) : Type := list effect * completion A.

Definition ret {A} (a : A) : M A := ([], Normal a).

Definition bind {A B} (m : M A) (f : A -> M B) : M B :=
  match m with
  | (t, Normal a) => let '(t', r) := f a in ((t ++ t')%list, r)
  | (t, Throw e) => (t, Throw e)
  | (t, Pending) => (t, Pending)
  | (t, Uncaught e) => (t, Uncaught e)
  end.

Definition emit (e : effect) : M unit := ([e], Normal tt).
Definition emit_all (es : list effect) : M unit := (es, Normal tt).
Definition throw {A} (e : js_error) : M A := ([], Throw e).

(** [await] of a collaborator's promise. *)
Definition await {A} (c : external A) : M A :=
  match c with
  | Ok a => ([], Normal a)
  | Failed what => ([], Throw (ExternalError what))
  | Never => ([], Pending)
  end.

(** [try { m } catch (err) { h err }] *)
Definition try_catch {A} (m : M A) (h : js_error -> M A) : M A :=
  match m with
  | (t, Throw e) => let '(t', r) := h e in ((t ++ t')%list, r)
  | _ => m
  end.

Declare Scope xpack_scope.
Delimit Scope xpack_scope with xpack.
Notation "x <- m ;; k" := (bind m (fun x => k))
  (at level 100, m at next level, right associativity) : xpack_scope.
Notation "m ;;; k" := (bind m (fun _ => k))
  (at level 100, right associativity) : xpack_scope.
Local Open Scope xpack_scope.

(** *** isFolderPackage *)
Definition isFolderPackage (w : world) (folder : string)
  : M (option package_json) :=
  emit (ReadFile (path_join [folder; "package.json"])) ;;;
  match package_json_file w with
  | Some json =>
      if truthy (name json) && truthy (version json) then ret (Some json)
      else ret None
  | None => ret None
  end.

(** *** cacheArchive

    A promise settles once: [resolve] and [reject] do nothing on a promise
    that is no longer pending. *)
Inductive promise : Type :=
  | Unsettled
  | Resolved (value : jsval)
  | Rejected (err : js_error).

Definition resolve (v : jsval) (p : promise) : promise :=
  match p with Unsettled => Resolved v | _ => p end.

Definition reject (e : js_error) (p : promise) : promise :=
  match p with Unsettled => Rejected e | _ => p end.

(** What an event makes the handlers log and do to the promise, the
    handlers that listen for it being run in the order they were
    registered: the two ['error'] handlers of the cache-write stream both
    log and both reject, the second to no effect. A [TransportError]
    reaches no handler. *)
Definition handler_log (ev : stream_event) : list effect :=
  match ev with
  | PutIntegrity value => [Log Debug ("computed integrity " +:+ value)]
  | PutError _ => [Log Trace "cacache.put.stream error";
                   Log Trace "cacheArchive pipe error"]
  | PipeClose => [Log Trace "cacheArchive pipe close"]
  | PipeError _ => [Log Trace "cacheArchive pipe error"]
  | TransportError _ => []
  end.

Definition handler (ev : stream_event) (p : promise) : promise :=
  match ev with
  | PutIntegrity value => resolve (JStr value) p
  | PutError what =>
      reject (ExternalError what) (reject (ExternalError what) p)
  | PipeClose => resolve JUndefined p
  | PipeError what => reject (ExternalError what) p
  | TransportError _ => p
  end.

(** The state of the promise after all of [events]. *)
Definition deliver (events : list stream_event) (p : promise) : promise :=
  fold_left (fun p ev => handler ev p) events p.

(** What the caller that awaits the promise observes: what the handlers
    log up to and with the event that settles the promise, and how it
    settled; an error of the request that comes while the promise is
    pending ends the process instead. The events that follow the one that
    settles the promise are emitted in later turns of the event loop:
    where their lines fall among those of the caller is not modelled (nor
    is an error of the request that late), and they cannot change the
    promise. *)
Fixpoint settlement (events : list stream_event) (p : promise) : M jsval :=
  match p with
  | Resolved v => ret v
  | Rejected e => throw e
  | Unsettled =>
      match events with
      | [] => ([], Pending)
      | TransportError what :: _ => ([], Uncaught (ExternalError what))
      | ev :: events' =>
          emit_all (handler_log ev) ;;; settlement events' (handler ev p)
      end
  end.

Definition cacheArchive (w : world) (url cachePath key : string)
    (opts : put_opts) : M jsval :=
  emit (RequestPipePutStream url cachePath key opts) ;;;
  settlement (download_events w) Unsettled.

(** *** downloadBinaries, piece by piece *)

Definition platformKey (w : world) : string :=
  process_platform w +:+ "-" +:+ sysArch w.

(** Lines 152-159: the URL of the archive. *)
Definition fileUrl (b : binaries) (platform : platform_entry) : M string :=
  match js_or (entry_baseUrl platform) (baseUrl b) with
  | JStr url =>
      let url := if endsWith "/" url then url else url +:+ "/" in
      ret (url +:+ to_string (fileName platform))
  | _ => throw TypeError
  end.

(** Lines 161-169: the algorithm and the checksum, [sha256] first. *)
Definition hashChoice (platform : platform_entry) : jsval * jsval :=
  if truthy (sha256 platform) then (JStr "sha256", sha256 platform)
  else if truthy (sha512 platform) then (JStr "sha512", sha512 platform)
  else (JUndefined, JUndefined).

(** Lines 171-175: the integrity digest. *)
Definition integrityDigest (hashAlgorithm hexSum : jsval) : M jsval :=
  if truthy hexSum then
    match hexSum with
    | JStr hex =>
        ret (JStr (to_string hashAlgorithm +:+ "-" +:+ base64 (hex_decode hex)))
    | _ => throw TypeError
    end
  else ret JUndefined.

(** Lines 212-219: the number of folder levels to skip. *)
Definition skipLevels (b : binaries) : jsval :=
  if truthy (skip b) then parseInt (skip b) else JNum 0.

(** Lines 182-210: the cache entry, downloading the archive when the cache
    does not know the key. *)
Definition ensureCached (w : world) (cachePath cacheKey url : string)
    (digest : jsval) : M cache_entry :=
  emit (CacheGetInfo cachePath cacheKey) ;;;
  cacheInfo <- await (get_info_first w) ;;
  match cacheInfo with
  | Some entry => ret entry
  | None =>
      emit (Log Info ("Downloading " +:+ url +:+ "...")) ;;;
      let opts :=
        {| opts_integrity := if truthy digest then digest else JUndefined |} in
      try_catch
        (_ <- cacheArchive w url cachePath cacheKey opts ;; ret tt)
        (fun err =>
           emit (LogError Info err) ;;;
           (if String.eqb (process_platform w) "win32"
            then emit (Log Info ("If you have an aggressive antivirus, try to"
                        +:+ " reconfigure it, or temporarily disable it."))
            else ret tt) ;;;
           throw (CliError "Download failed." ERROR_INPUT)) ;;;
      emit (CacheGetInfo cachePath cacheKey) ;;;
      cacheInfo <- await (get_info_second w) ;;
      match cacheInfo with
      | Some entry => ret entry
      | None => throw (CliError "Download failed." ERROR_INPUT)
      end
  end.

(** Lines 138-139: the folder the archive is extracted to.  [path.join]
    throws a TypeError on an argument that is not a string. *)
Definition contentFolderPath (packagePath : string) (b : binaries)
  : M fs_path :=
  match js_or (destination b) (JStr ".content") with
  | JStr contentFolder => ret (path_join [packagePath; contentFolder])
  | _ => throw TypeError
  end.

(** Lines 212-234: the destination is removed, then the archive is
    extracted into it. *)
Definition extract (w : world) (b : binaries) (platform : platform_entry)
    (contentFolderPath : fs_path) (cacheInfo : cache_entry) : M unit :=
  let skip := skipLevels b in
  emit (Log Trace ("skip " +:+ to_string skip +:+ " levels")) ;;;
  emit (LogPath Trace "rimraf " contentFolderPath) ;;;
  emit (Rimraf contentFolderPath) ;;;
  await (rimraf_result w) ;;;
  let ipath := path cacheInfo in
  emit (Log Trace ("ipath " +:+ ipath)) ;;;
  emit (Log Info ("Extracting '" +:+ to_string (fileName platform)
                    +:+ "'...")) ;;;
  emit (Decompress ipath contentFolderPath skip) ;;;
  res <- await (decompress_result w) ;;
  emit (Log Info (NilZero.string_of_uint (Nat.to_uint res)
                    +:+ " files extracted.")).

(** Lines 133-234: from the check of [baseUrl] on. *)
Definition acquire (w : world) (packagePath cachePath : string)
    (b : binaries) (platform : platform_entry) : M unit :=
  if negb (truthy (baseUrl b)) then
    throw (CliError "Missing xpack.binaries.baseUrl" ERROR_INPUT)
  else
    contentFolderPath <- contentFolderPath packagePath b ;;
    if truthy (entry_skip platform) then
      emit (Log Warn
        "No binaries are available for this platform, command ignored.")
    else if negb (truthy (fileName platform)) then
      throw (CliError ("Missing xpack.binaries.platform[" +:+ platformKey w
                         +:+ "].fileName") ERROR_INPUT)
    else
      url <- fileUrl b platform ;;
      let '(hashAlgorithm, hexSum) := hashChoice platform in
      digest <- integrityDigest hashAlgorithm hexSum ;;
      emit (Log Trace ("expected integrity digest " +:+ to_string digest
                         +:+ " for " +:+ to_string hexSum)) ;;;
      let cacheKey := "xpm:binaries:" +:+ to_string (fileName platform) in
      emit (Log Trace ("getting cacache info(" +:+ cachePath +:+ ", "
                         +:+ cacheKey +:+ ")...")) ;;;
      cacheInfo <- ensureCached w cachePath cacheKey url digest ;;
      extract w b platform contentFolderPath cacheInfo.

(** [downloadBinaries(packagePath, cachePath)] *)
Definition downloadBinaries (w : world) (packagePath cachePath : string)
  : M unit :=
  json <- isFolderPackage w packagePath ;;
  match json with
  | None =>
      emit (Log Debug "doesn't look like an xPack, package.json has no xpack")
  | Some json =>
      match xpack json with
      | None =>
          emit (Log Debug
            "doesn't look like an xPack, package.json has no xpack")
      | Some x =>
          match xpack_binaries x with
          | None =>
              emit (Log Debug ("doesn't look like a binary xPack, "
                      +:+ "package.json has no xpack.binaries"))
          | Some b =>
              match platforms b with
              | None =>
                  emit (Log Debug ("doesn't look like a binary xPack, "
                    +:+ "package.json has no xpack.binaries.platforms"))
              | Some pfs =>
                  match pfs !! platformKey w with
                  | None =>
                      emit (Log Debug ("platform " +:+ platformKey w
                                         +:+ " not defined"))
                  | Some platform =>
                      acquire w packagePath cachePath b platform
                  end
              end
          end
      end
  end.

(** *** Specification helpers *)

(** The [binaries] section and the platform entry [downloadBinaries]
    resolves before line 133, when it gets that far. *)
Definition resolvePlatform (w : world) : option (binaries * platform_entry) :=
  json ← package_json_file w;
  if truthy (name json) && truthy (version json) then
    x ← xpack json;
    b ← xpack_binaries x;
    pfs ← platforms b;
    platform ← pfs !! platformKey w;
    Some (b, platform)
  else None.

(** [base] with a [/] appended unless it ends with one. *)
Definition with_slash (base : string) : string :=
  if endsWith "/" base then base else base +:+ "/".

(** Well-formed hexadecimal text: pairs of hexadecimal digits. *)
Fixpoint well_formed_hex (s : string) : bool :=
  match s with
  | EmptyString => true
  | String a (String b s') =>
      match unhex a, unhex b with
      | Some _, Some _ => well_formed_hex s'
      | _, _ => false
      end
  | String _ EmptyString => false
  end.

(** Does [s] begin with a pair of hexadecimal digits? *)
Definition begins_with_pair (s : string) : bool :=
  match s with
  | String a (String b _) =>
      match unhex a, unhex b with
      | Some _, Some _ => true
      | _, _ => false
      end
  | _ => false
  end.

(** The text that writes [bytes] in hexadecimal, two lowercase digits
    for each byte; used to say which bytes a checksum is decoded to. *)
Definition hex_digit (n : Z) : ascii :=
  match String.get (Z.to_nat n) "0123456789abcdef" with
  | Some a => a
  | None => "0"%char
  end.

Fixpoint hex_encode (bytes : list Z) : string :=
  match bytes with
  | [] => EmptyString
  | byte :: bytes' =>
      String (hex_digit (Z.shiftr byte 4))
        (String (hex_digit (Z.land byte 15)) (hex_encode bytes'))
  end.

Definition lower (a : ascii) : ascii :=
  let n := N_of_ascii a in
  if ((65 <=? n) && (n <=? 90))%N then ascii_of_N (n + 32) else a.

Fixpoint lowercase (s : string) : string :=
  match s with
  | EmptyString => EmptyString
  | String a s' => String (lower a) (lowercase s')
  end.

(** *** The URL as the specification words it

    [effectiveBase = entry.baseUrl ?? xpack.binaries.baseUrl]: the
    [baseUrl] of the entry unless it is [undefined] or [null]; if it
    does not end in [/], one is appended; the URL is [effectiveBase +
    entry.fileName]. Nothing is said of a base that is not a string. *)
Definition nullish (v : jsval) : bool :=
  match v with JUndefined | JNull => true | _ => false end.

Definition spec_effectiveBase (b : binaries) (platform : platform_entry)
  : jsval :=
  if nullish (entry_baseUrl platform) then baseUrl b
  else entry_baseUrl platform.

Definition last_char (s : string) : option ascii :=
  String.get (String.length s - 1) s.

Definition ends_in (c : ascii) (s : string) : bool :=
  match last_char s with
  | Some a => Ascii.eqb a c
  | None => false
  end.

Definition spec_fileUrl (b : binaries) (platform : platform_entry)
  : option string :=
  match spec_effectiveBase b platform with
  | JStr base =>
      Some ((if ends_in "/" base then base else base +:+ "/")
              +:+ to_string (fileName platform))
  | _ => None
  end.

Definition is_rimraf (e : effect) : bool :=
  match e with Rimraf _ => true | _ => false end.

Definition is_download (e : effect) : bool :=
  match e with RequestPipePutStream _ _ _ _ => true | _ => false end.

(** *** Sample manifests and worlds, for concrete runs *)

Definition sample_entry : platform_entry :=
  {| fileName := JStr "x.tar.gz";
     entry_baseUrl := JStr "https://example.com";
     sha256 := JUndefined; sha512 := JUndefined;
     entry_skip := JUndefined |}.

Definition sample_binaries (top_baseUrl skip_levels : jsval)
    (entry : platform_entry) : binaries :=
  {| baseUrl := top_baseUrl; destination := JUndefined;
     skip := skip_levels;
     platforms := Some {[ "linux-x64" := entry ]} |}.

Definition sample_world (b : binaries)
    (first : option cache_entry) (events : list stream_event)
    (second : option cache_entry) : world :=
  {| process_platform := "linux"; sysArch := "x64";
     package_json_file :=
       Some {| name := JStr "pkg"; version := JStr "1.0.0";
               xpack := Some {| xpack_binaries := Some b |} |};
     get_info_first := Ok first;
     get_info_second := Ok second;
     download_events := events;
     rimraf_result := Ok tt;
     decompress_result := Ok 3%nat |}.

(** An entry that is skipped, its other properties missing or
    malformed. *)
Definition skipped_entry : platform_entry :=
  {| fileName := JUndefined; entry_baseUrl := JNum 7;
     sha256 := JStr "not hex"; sha512 := JUndefined;
     entry_skip := JBool true |}.

(** An entry whose [baseUrl] is there and empty. *)
Definition empty_override_entry : platform_entry :=
  {| fileName := JStr "x.tar.gz"; entry_baseUrl := JStr "";
     sha256 := JUndefined; sha512 := JUndefined;
     entry_skip := JUndefined |}.

(** An entry that leaves the base to [xpack.binaries.baseUrl]. *)
Definition plain_entry : platform_entry :=
  {| fileName := JStr "y.zip"; entry_baseUrl := JUndefined;
     sha256 := JUndefined; sha512 := JUndefined;
     entry_skip := JUndefined |}.

(** An entry whose [sha256] is one character short. *)
Definition truncated_entry : platform_entry :=
  {| fileName := JStr "x.tar.gz"; entry_baseUrl := JUndefined;
     sha256 := JStr "666f6"; sha512 := JUndefined;
     entry_skip := JUndefined |}.

(** An entry with a declared [sha256] (that of the empty archive). *)
Definition checked_entry : platform_entry :=
  {| fileName := JStr "x.tar.gz"; entry_baseUrl := JUndefined;
     sha256 := JStr ("e3b0c44298fc1c149afbf4c8996fb924"
                       +:+ "27ae41e4649b934ca495991b7852b855");
     sha512 := JUndefined; entry_skip := JBool false |}.

(** A world whose cache does not know the archive and whose cache store
    rejects the download. *)
Definition rejecting_world : world :=
  sample_world
    (sample_binaries (JStr "https://fallback.com/") (JNum 1) checked_entry)
    None [PutError "EINTEGRITY"] None.

(** A world that runs on a platform the manifest has no entry for. *)
Definition unsupported_world : world :=
  {| process_platform := "freebsd"; sysArch := "x64";
     package_json_file :=
       Some {| name := JStr "pkg"; version := JStr "1.0.0";
               xpack := Some {| xpack_binaries :=
                 Some (sample_binaries (JStr "https://fallback.com/")
                         (JNum 1) sample_entry) |} |};
     get_info_first := Ok None; get_info_second := Ok None;
     download_events := []; rimraf_result := Ok tt;
     decompress_result := Ok 0%nat |}.

(** The same on Windows. *)
Definition windows_rejecting_world : world :=
  {| process_platform := "win32"; sysArch := "x64";
     package_json_file :=
       Some {| name := JStr "pkg"; version := JStr "1.0.0";
               xpack := Some {| xpack_binaries :=
                 Some {| baseUrl := JStr "https://fallback.com/";
                         destination := JUndefined; skip := JNum 1;
                         platforms :=
                           Some {[ "win32-x64" := checked_entry ]} |} |} |};
     get_info_first := Ok None; get_info_second := Ok None;
     download_events := [PipeError "ECONNRESET"]; rimraf_result := Ok tt;
     decompress_result := Ok 0%nat |}.

(** A world in which the host of the archive is not found: the request
    emits an error before the cache-write stream emits anything. *)
Definition transport_failing_world : world :=
  sample_world
    (sample_binaries (JStr "https://example.invalid") JUndefined
       {| fileName := JStr "x.tar.gz"; entry_baseUrl := JUndefined;
          sha256 := JUndefined; sha512 := JUndefined;
          entry_skip := JUndefined |})
    None [TransportError "ENOTFOUND"] None.

Definition sample_cached : cache_entry :=
  {| path := "/cache/content/ab/cd"; integrity := "sha256-47DEQpj8" |}.

End Xpack.


(** ** ManifestId: the renderings that build a path or a folder name *)

Module ManifestIdPaths.

Import ManifestId.

(** The result of [path.join] (the separator of the host) or of
    [path.posix.join] (always [/]), kept as the list of its arguments. *)
Inductive joined : Type :=
  | NativeJoin (segments : list string)
  | PosixJoin (segments : list string).

(** Both functions throw a TypeError on an argument that is not a
    string. *)
Fixpoint string_args (args : list jsval) : completion (list string) :=
  match args with
  | [] => Normal []
  | JStr s :: args' =>
      match string_args args' with
      | Normal l => Normal (s :: l)
      | other => other
      end
  | _ :: _ => Throw TypeError
  end.

Definition join_with (mk : list string -> joined) (args : list jsval)
  : completion joined :=
  match string_args args with
  | Normal l => Normal (mk l)
  | Throw e => Throw e
  | Pending => Pending
  | Uncaught e => Uncaught e
  end.

Definition getPath (i : t) : completion joined :=
  if truthy (scope i)
  then join_with NativeJoin [scope i; name i; version i]
  else join_with NativeJoin [name i; version i].

Definition getPosixPath (i : t) : completion joined :=
  if truthy (scope i)
  then join_with PosixJoin [scope i; name i; version i]
  else join_with PosixJoin [name i; version i].

(** [s.slice(1)] *)
Definition slice1 (s : string) : string :=
  match s with
  | EmptyString => EmptyString
  | String _ s' => s'
  end.

(** [slice] is a method of strings: on another truthy scope the call is
    a TypeError. *)
Definition getFolderName (i : t) : completion string :=
  if truthy (scope i) then
    match scope i with
    | JStr sc => Normal (slice1 sc +:+ "-" +:+ to_string (name i))
    | _ => Throw TypeError
    end
  else Normal (to_string (name i)).

End ManifestIdPaths.

(** ** Xpack.skipRecursive *)

Module SkipRecursive.

Import Xpack.

(** What is at [from], as the traversal finds it, that is what
    [readdir] answers there and below:
    - [Folder]: [readdir] resolves with the names of the entries, in
      this order;
    - [File]: a file, on which [readdir] rejects with ENOTDIR;
    - [Unreadable]: [readdir] rejects with another error (ENOENT for a
      path that is not there, EACCES for a folder that may not be read,
      and so on);
    - [Unanswered]: [readdir] never settles.
    The destination is taken to lie outside [from], so that no rename
    changes what a later [readdir] lists. *)
#[warnings="-register-all"]
Inductive node : Type :=
  | File
  | Folder (children : list (string * node))
  | Unreadable (what : string)
  | Unanswered.

Inductive fs_effect : Type :=
  | Readdir (p : fs_path)
  | Rename (oldPath newPath : fs_path).

(** [path.join(p, child)] on a path that is itself the result of a
    [path.join]. *)
Definition child_path (p : fs_path) (child : string) : fs_path :=
  path_join (segments p ++ [child]).

(** A run: the calls made on the file system, and how the call ended. *)
Definition run : Type := list fs_effect * completion unit.

Definition then_run (r : run) (k : run) : run :=
  match r with
  | (t, Normal _) => let '(t', c) := k in ((t ++ t')%list, c)
  | _ => r
  end.

(** [await fsPromises.rename(oldPath, newPath)], the answer read from
    [rename_result]. *)
Definition rename (rename_result : fs_path -> fs_path -> external unit)
    (oldPath newPath : fs_path) : run :=
  ([Rename oldPath newPath],
   match rename_result oldPath newPath with
   | Ok _ => Normal tt
   | Failed what => Throw (ExternalError what)
   | Never => Pending
   end).

(** [for (const child of children) { await body(child) }]: the loop
    stops at the first iteration that does not complete. *)
Definition for_each (body : string -> node -> run)
  : list (string * node) -> run :=
  fix each (children : list (string * node)) : run :=
    match children with
    | [] => ([], Normal tt)
    | (child, sub) :: children' => then_run (body child sub) (each children')
    end.

(** [skipRecursive(from, dest, skip)], [tree] being what is at [from].
    Both branches begin with [await fsPromises.readdir(from)]: whatever
    it rejects with is thrown as it is. *)
Fixpoint skipRecursive
    (rename_result : fs_path -> fs_path -> external unit)
    (tree : node) (from dest : fs_path) (skip : Z) {struct tree} : run :=
  match tree with
  | File => ([Readdir from], Throw (ExternalError "ENOTDIR"))
  | Unreadable what => ([Readdir from], Throw (ExternalError what))
  | Unanswered => ([Readdir from], Pending)
  | Folder children =>
      then_run ([Readdir from], Normal tt)
        (if 0 <? skip then
           for_each
             (fun child sub =>
                skipRecursive rename_result sub (child_path from child)
                  dest (skip - 1))
             children
         else
           for_each
             (fun child _ =>
                rename rename_result (child_path from child)
                  (child_path dest child))
             children)
  end.

(** *** Specification helpers *)

(** The entries found [depth] folders below [from], with their paths. *)
Fixpoint entries_at (depth : nat) (tree : node) (from : fs_path)
    {struct tree} : list (fs_path * string) :=
  match tree with
  | File | Unreadable _ | Unanswered => []
  | Folder children =>
      match depth with
      | O => map (fun '(child, _) => (from, child)) children
      | S depth' =>
          flat_map
            (fun '(child, sub) =>
               entries_at depth' sub (child_path from child))
            children
      end
  end.

(** Is everything down to [depth] folders below [from] a folder that
    [readdir] lists? *)
Fixpoint folders_down_to (depth : nat) (tree : node) {struct tree} : bool :=
  match tree with
  | File | Unreadable _ | Unanswered => false
  | Folder children =>
      match depth with
      | O => true
      | S depth' =>
          forallb (fun '(_, sub) => folders_down_to depth' sub) children
      end
  end.

(** The paths in and below [from] on which [readdir] rejects, each with
    the error it rejects with. *)
Fixpoint rejections (tree : node) (from : fs_path) {struct tree}
  : list (fs_path * string) :=
  match tree with
  | File => [(from, "ENOTDIR")]
  | Unreadable what => [(from, what)]
  | Unanswered => []
  | Folder children =>
      flat_map
        (fun '(child, sub) => rejections sub (child_path from child))
        children
  end.

(** Does a [readdir] in or below [from] never settle? *)
Fixpoint unanswered (tree : node) {struct tree} : bool :=
  match tree with
  | File | Unreadable _ => false
  | Unanswered => true
  | Folder children => existsb (fun '(_, sub) => unanswered sub) children
  end.

(** How a run that did not complete stopped: [t] ends with the call
    that rejected, a [readdir] of one of the paths of [rejected] or a
    rename, or with the call that never settles, a [readdir] when
    [hanging] or a rename. *)
Definition stopped_at
    (rename_result : fs_path -> fs_path -> external unit)
    (rejected : list (fs_path * string)) (hanging : bool)
    (t : list fs_effect) (c : completion unit) : Prop :=
  match c with
  | Throw e =>
      exists before,
        (exists p what,
           t = (before ++ [Readdir p])%list
           /\ In (p, what) rejected
           /\ e = ExternalError what)
        \/ (exists oldPath newPath what,
              t = (before ++ [Rename oldPath newPath])%list
              /\ rename_result oldPath newPath = Failed what
              /\ e = ExternalError what)
  | Pending =>
      exists before,
        (exists p, t = (before ++ [Readdir p])%list /\ hanging = true)
        \/ (exists oldPath newPath,
              t = (before ++ [Rename oldPath newPath])%list
              /\ rename_result oldPath newPath = Never)
  | _ => True
  end.

Definition renames_of (dest : fs_path) (entries : list (fs_path * string))
  : list fs_effect :=
  map (fun '(dir, child) =>
         Rename (child_path dir child) (child_path dest child)) entries.

Definition is_rename (e : fs_effect) : bool :=
  match e with Rename _ _ => true | Readdir _ => false end.

Definition always_ok : fs_path -> fs_path -> external unit :=
  fun _ _ => Ok tt.

(** An archive unpacked with one top folder. *)
Definition sample_tree : node :=
  Folder [("top", Folder [("bin", Folder [("tool", File)]);
                          ("README", File)])].

(** The same, with a folder that may not be read. *)
Definition locked_tree : node :=
  Folder [("top", Folder [("bin", Unreadable "EACCES");
                          ("README", File)])].

End SkipRecursive.

(** * Properties *)

(** ** Strings *)

Section StringFacts.

Lemma split_before_after (c : ascii) (s : string) :
  split c s
  = before c s :: match after c s with Some r => split c r | None => [] end.
Proof.
  induction s as [|a s IH]; simpl; [reflexivity|].
  destruct (Ascii.eqb a c); [reflexivity|].
  rewrite IH. reflexivity.
Qed.

Lemma split_first_element (c : ascii) (s : string) :
  split c s !! 0%nat = Some (before c s).
Proof. rewrite split_before_after. reflexivity. Qed.

Lemma split_second_element (c : ascii) (s : string) :
  split c s !! 1%nat = before c <$> after c s.
Proof.
  rewrite split_before_after. simpl.
  destruct (after c s) as [r|]; simpl; [|reflexivity].
  rewrite split_before_after. reflexivity.
Qed.

Lemma before_absent (c : ascii) (s : string) :
  occurs c s = false -> before c s = s.
Proof.
  induction s as [|a s IH]; simpl; [reflexivity|].
  destruct (Ascii.eqb a c); [discriminate|].
  intros H. rewrite IH by assumption. reflexivity.
Qed.

Lemma after_absent (c : ascii) (s : string) :
  occurs c s = false -> after c s = None.
Proof.
  induction s as [|a s IH]; simpl; [reflexivity|].
  destruct (Ascii.eqb a c); [discriminate|assumption].
Qed.

Lemma before_app (c : ascii) (s1 s2 : string) :
  occurs c s1 = false -> before c (s1 +:+ String c s2) = s1.
Proof.
  induction s1 as [|a s1 IH]; simpl.
  - rewrite Ascii.eqb_refl. reflexivity.
  - destruct (Ascii.eqb a c); [discriminate|].
    intros H. rewrite IH by assumption. reflexivity.
Qed.

Lemma after_app (c : ascii) (s1 s2 : string) :
  occurs c s1 = false -> after c (s1 +:+ String c s2) = Some s2.
Proof.
  induction s1 as [|a s1 IH]; simpl.
  - rewrite Ascii.eqb_refl. reflexivity.
  - destruct (Ascii.eqb a c); [discriminate|assumption].
Qed.

Lemma occurs_app (c : ascii) (s1 s2 : string) :
  occurs c (s1 +:+ s2) = occurs c s1 || occurs c s2.
Proof.
  induction s1 as [|a s1 IH]; simpl; [reflexivity|].
  destruct (Ascii.eqb a c); [reflexivity|assumption].
Qed.

End StringFacts.

(** ** ManifestId *)

Section ManifestIdFacts.

Import ManifestId.

(** What the constructor computes, in terms of [before] and [after]:
    [split] keeps every segment, and the constructor reads the first two
    only. *)
Lemma constructor_unfold (id : string) (fallback : jsval) :
  constructor {| _from := JStr id; manifest_version := fallback |}
  = if startsWith "@" id then
      match after "/" id with
      | Some rest =>
          let seg := before "/" rest in
          Normal {| scope := JStr (before "/" id);
                    name := JStr (before "@" seg);
                    version := js_or (of_option (before "@" <$> after "@" seg))
                                     fallback |}
      | None => Throw TypeError
      end
    else
      Normal {| scope := JUndefined;
                name := JStr (before "@" id);
                version := js_or (of_option (before "@" <$> after "@" id))
                                 fallback |}.
Proof.
  unfold constructor. cbn [_from manifest_version].
  rewrite !split_first_element, !split_second_element.
  destruct (startsWith "@" id); [|reflexivity].
  destruct (after "/" id) as [rest|]; [|reflexivity].
  cbn [fmap option_fmap option_map].
  rewrite split_first_element, split_second_element. reflexivity.
Qed.

Lemma version_or_js_or (v : option string) (fallback : jsval) :
  js_or (of_option v) fallback = version_or v fallback.
Proof.
  destruct v as [v|]; [|reflexivity].
  unfold js_or, version_or. simpl. destruct (nonempty v); reflexivity.
Qed.

Lemma single_at_version (s : string) :
  single_at s = true -> before "@" <$> after "@" s = after "@" s.
Proof.
  unfold single_at. destruct (after "@" s) as [v|]; [|reflexivity].
  intros H. simpl. rewrite before_absent; [reflexivity|].
  destruct (occurs "@" v); [discriminate|reflexivity].
Qed.

(** C7 (as amended): on a descriptor without further separators the
    constructor computes what the algorithm of the specification
    describes: the scope is the text before the first [/], the name the
    text before the first [@] of the rest, the version the text after that
    [@] when it is not empty, the fallback version otherwise; an unscoped
    descriptor is split at its first [@] and has no scope. *)
Theorem constructor_refines_spec_parse (id : string) (fallback : jsval) :
  well_separated id = true ->
  Some (constructor {| _from := JStr id; manifest_version := fallback |})
  = Normal <$> spec_parse id fallback.
Proof.
  intros Hsep. rewrite constructor_unfold.
  unfold well_separated, spec_parse, split_first in *.
  destruct (startsWith "@" id).
  - destruct (after "/" id) as [rest|]; [|discriminate].
    apply andb_prop in Hsep as [Hslash Hat].
    apply negb_true_iff in Hslash.
    cbn zeta. rewrite (before_absent _ _ Hslash).
    rewrite (single_at_version _ Hat), version_or_js_or. reflexivity.
  - rewrite (single_at_version _ Hsep), version_or_js_or. reflexivity.
Qed.

Lemma constructor_refines_spec_parse_witness :
  well_separated "@scope/name@1.2.3" = true
  /\ Some (constructor {| _from := JStr "@scope/name@1.2.3";
                          manifest_version := JStr "0.0.1" |})
     = Normal <$> spec_parse "@scope/name@1.2.3" (JStr "0.0.1").
Proof.
  split; [reflexivity|].
  apply (constructor_refines_spec_parse "@scope/name@1.2.3" (JStr "0.0.1")).
  reflexivity.
Defined.

(** C7 as stated fails: with a second [@] the version is the segment
    between the first two [@], not the text after the first. *)
Lemma constructor_second_at_counterexample :
  constructor {| _from := JStr "name@1@2"; manifest_version := JStr "0.0.1" |}
  = Normal {| scope := JUndefined; name := JStr "name"; version := JStr "1" |}
  /\ spec_parse "name@1@2" (JStr "0.0.1")
     = Some {| scope := JUndefined; name := JStr "name";
               version := JStr "1@2" |}.
Proof. split; reflexivity. Qed.

Lemma plain_part_inv (s : string) :
  plain_part s = true ->
  nonempty s = true /\ occurs "@" s = false /\ occurs "/" s = false.
Proof.
  unfold plain_part. intros H.
  apply andb_prop in H as [H H3]. apply andb_prop in H as [H1 H2].
  apply negb_true_iff in H2, H3. auto.
Qed.

Lemma plain_part_not_scoped (s t : string) :
  plain_part s = true -> startsWith "@" (s +:+ t) = false.
Proof.
  intros H. apply plain_part_inv in H as (Hne & Hat & _).
  destruct s as [|a s]; [discriminate|].
  change (String a s +:+ t) with (String a (s +:+ t)).
  cbn [startsWith occurs] in *. rewrite Ascii.eqb_sym.
  destruct (Ascii.eqb a "@"); [discriminate|reflexivity].
Qed.

(** C8: a descriptor of the shape [@scope/name@version] or
    [name@version], its parts not empty and free of [@] and [/], is what
    [getFullName] gives back for the parsed identifier. *)
Theorem getFullName_round_trip (nm ver : string) (fallback : jsval) :
  plain_part nm = true -> plain_part ver = true ->
  (forall sc, plain_part sc = true ->
     exists i,
       constructor {| _from := JStr ("@" +:+ sc +:+ "/" +:+ nm +:+ "@" +:+ ver);
                      manifest_version := fallback |} = Normal i
       /\ getFullName i = "@" +:+ sc +:+ "/" +:+ nm +:+ "@" +:+ ver)
  /\ (exists i,
        constructor {| _from := JStr (nm +:+ "@" +:+ ver);
                       manifest_version := fallback |} = Normal i
        /\ getFullName i = nm +:+ "@" +:+ ver).
Proof.
  intros Hnm Hver.
  pose proof (plain_part_not_scoped nm ("@" +:+ ver) Hnm) as Hunscoped.
  apply plain_part_inv in Hnm as (_ & Hnm_at & Hnm_slash).
  apply plain_part_inv in Hver as (Hne & Hver_at & Hver_slash).
  assert (Hver_or : forall fb, js_or (JStr ver) fb = JStr ver).
  { intros fb. unfold js_or. simpl. rewrite Hne. reflexivity. }
  split; [intros sc Hsc; apply plain_part_inv in Hsc as (_ & _ & Hsc)|];
    eexists; rewrite constructor_unfold.
  - change (startsWith "@" ("@" +:+ sc +:+ "/" +:+ nm +:+ "@" +:+ ver)) with true.
    change ("@" +:+ sc +:+ "/" +:+ nm +:+ "@" +:+ ver)
      with (String "@" (sc +:+ String "/" (nm +:+ String "@" ver))).
    cbn [after before]. change (Ascii.eqb "@" "/") with false. cbn iota.
    rewrite (after_app "/" sc _ Hsc), (before_app "/" sc _ Hsc).
    cbn zeta.
    rewrite (before_absent "/" (nm +:+ String "@" ver)).
    2:{ rewrite occurs_app, Hnm_slash. simpl. exact Hver_slash. }
    rewrite (after_app "@" nm _ Hnm_at), (before_app "@" nm _ Hnm_at).
    cbn [fmap option_fmap option_map of_option].
    rewrite (before_absent "@" ver Hver_at), Hver_or.
    split; reflexivity.
  - rewrite Hunscoped.
    change (nm +:+ "@" +:+ ver) with (nm +:+ String "@" ver).
    rewrite (after_app "@" nm _ Hnm_at), (before_app "@" nm _ Hnm_at).
    cbn [fmap option_fmap option_map of_option].
    rewrite (before_absent "@" ver Hver_at), Hver_or.
    split; reflexivity.
Qed.

Lemma getFullName_round_trip_witness :
  (exists i,
     constructor {| _from := JStr "@scope/name@1.2.3";
                    manifest_version := JStr "0.0.1" |} = Normal i
     /\ getFullName i = "@scope/name@1.2.3")
  /\ (exists i,
     constructor {| _from := JStr "name@1.2.3";
                    manifest_version := JStr "0.0.1" |} = Normal i
     /\ getFullName i = "name@1.2.3").
Proof.
  destruct (getFullName_round_trip "name" "1.2.3" (JStr "0.0.1")
              eq_refl eq_refl) as [Hscoped Hunscoped].
  split; [exact (Hscoped "scope" eq_refl)|exact Hunscoped].
Defined.

(** C10: a descriptor that starts with [@] and has no [/] makes the
    constructor throw a TypeError: [arr[1]] is [undefined], and [split] is
    called on it. *)
Theorem constructor_scoped_without_slash (id : string) (fallback : jsval) :
  startsWith "@" id = true -> occurs "/" id = false ->
  constructor {| _from := JStr id; manifest_version := fallback |}
  = Throw TypeError.
Proof.
  intros Hscoped Hslash. rewrite constructor_unfold, Hscoped.
  rewrite (after_absent _ _ Hslash). reflexivity.
Qed.

Lemma constructor_scoped_without_slash_witness :
  constructor {| _from := JStr "@foo"; manifest_version := JStr "1.0.0" |}
  = Throw TypeError.
Proof.
  apply (constructor_scoped_without_slash "@foo" (JStr "1.0.0")); reflexivity.
Defined.

End ManifestIdFacts.

(** ** Xpack: the pure steps *)

Section StepFacts.

Import Xpack.

Lemma handler_settled (ev : stream_event) (p : promise) :
  p <> Unsettled -> handler ev p = p.
Proof. destruct ev, p; simpl; congruence. Qed.

(** A promise that is settled stays as it is, whatever comes. *)
Lemma deliver_settled (events : list stream_event) (p : promise) :
  p <> Unsettled -> deliver events p = p.
Proof.
  revert p. induction events as [|ev events IH]; intros p Hp; [reflexivity|].
  unfold deliver in *. simpl. rewrite (handler_settled ev p Hp). apply IH, Hp.
Qed.

(** How [cacheArchive] ends, by the first event of the download. *)
Lemma cacheArchive_first_event (w : world) (url cachePath key : string)
    (opts : put_opts) :
  snd (cacheArchive w url cachePath key opts)
  = match download_events w with
    | [] => Pending
    | PutIntegrity value :: _ => Normal (JStr value)
    | PipeClose :: _ => Normal JUndefined
    | PutError what :: _ | PipeError what :: _ => Throw (ExternalError what)
    | TransportError what :: _ => Uncaught (ExternalError what)
    end.
Proof.
  unfold cacheArchive. destruct (download_events w) as [|ev events];
    [reflexivity|].
  destruct ev; destruct events; reflexivity.
Qed.

(** C2: an error of the transport stream does not reject the promise of
    [cacheArchive]. The handlers of lines 253-260 are registered on what
    [pipe] returns, the cache-write stream, so the request has no
    ['error'] handler: its error is an uncaught exception. [cacheArchive]
    then logs nothing, and [downloadBinaries] neither logs the error nor
    ends with 'Download failed.', as it does for an error of the
    cache-write stream. The rest of the claim holds of the cache-write
    stream: its ['integrity'] resolves with the digest, its ['error']
    rejects. *)
Theorem transport_error_is_uncaught :
  (forall w url cachePath key opts what rest,
     download_events w = TransportError what :: rest ->
     cacheArchive w url cachePath key opts
     = ([RequestPipePutStream url cachePath key opts],
        Uncaught (ExternalError what)))
  /\ (forall w url cachePath key opts value rest,
        download_events w = PutIntegrity value :: rest ->
        snd (cacheArchive w url cachePath key opts) = Normal (JStr value))
  /\ (forall w url cachePath key opts what rest,
        download_events w = PutError what :: rest ->
        snd (cacheArchive w url cachePath key opts)
        = Throw (ExternalError what))
  /\ downloadBinaries transport_failing_world "/pkg" "/cache"
     = ([ReadFile (path_join ["/pkg"; "package.json"]);
         Log Trace "expected integrity digest undefined for undefined";
         Log Trace "getting cacache info(/cache, xpm:binaries:x.tar.gz)...";
         CacheGetInfo "/cache" "xpm:binaries:x.tar.gz";
         Log Info "Downloading https://example.invalid/x.tar.gz...";
         RequestPipePutStream "https://example.invalid/x.tar.gz" "/cache"
           "xpm:binaries:x.tar.gz" {| opts_integrity := JUndefined |}],
        Uncaught (ExternalError "ENOTFOUND"))
  /\ snd (downloadBinaries rejecting_world "/pkg" "/cache")
     = Throw (CliError "Download failed." ERROR_INPUT).
Proof.
  split; [|split; [|split; [|split; reflexivity]]];
    intros w url cachePath key opts what rest Hev;
    unfold cacheArchive; rewrite Hev; destruct rest; reflexivity.
Qed.

Lemma transport_error_is_uncaught_witness :
  cacheArchive transport_failing_world "https://example.invalid/x.tar.gz"
    "/cache" "xpm:binaries:x.tar.gz" {| opts_integrity := JUndefined |}
  = ([RequestPipePutStream "https://example.invalid/x.tar.gz" "/cache"
        "xpm:binaries:x.tar.gz" {| opts_integrity := JUndefined |}],
     Uncaught (ExternalError "ENOTFOUND")).
Proof.
  destruct transport_error_is_uncaught as [Huncaught _].
  apply (Huncaught transport_failing_world
           "https://example.invalid/x.tar.gz" "/cache"
           "xpm:binaries:x.tar.gz" {| opts_integrity := JUndefined |}
           "ENOTFOUND" []).
  reflexivity.
Defined.

(** [hex_decode] keeps the bytes of the longest well-formed prefix. *)
Lemma hex_decode_well_formed_prefix (good rest : string) :
  well_formed_hex good = true ->
  hex_decode (good +:+ rest) = (hex_decode good ++ hex_decode rest)%list.
Proof.
  revert good. fix IH 1. intros [|a [|b good]]; simpl; intros H.
  - reflexivity.
  - discriminate.
  - destruct (unhex a); [|discriminate]. destruct (unhex b); [|discriminate].
    rewrite (IH good H). reflexivity.
Qed.

Lemma hex_decode_length (s : string) :
  well_formed_hex s = true ->
  (2 * length (hex_decode s) = String.length s)%nat.
Proof.
  revert s. fix IH 1. intros [|a [|b s]]; simpl; intros H.
  - reflexivity.
  - discriminate.
  - destruct (unhex a); [|discriminate]. destruct (unhex b); [|discriminate].
    simpl. specialize (IH s H). lia.
Qed.

(** C4: with [skip: "abc"] in the manifest the skip depth is [NaN], not
    0: [parseInt] does not throw on text that is not a number, so the
    [catch] that would keep the initial 0 is never entered. *)
Theorem skipLevels_not_a_number :
  skipLevels (sample_binaries (JStr "https://fallback.com/") (JStr "abc")
                sample_entry) = JNaN
  /\ In (Decompress "/cache/content/ab/cd"
           (path_join ["/pkg"; ".content"]) JNaN)
        (fst (downloadBinaries
                (sample_world
                   (sample_binaries (JStr "https://fallback.com/")
                      (JStr "abc") sample_entry)
                   (Some sample_cached) [] None)
                "/pkg" "/cache")).
Proof.
  split; [reflexivity|].
  vm_compute. repeat (first [left; reflexivity | right]).
Qed.

End StepFacts.

(** ** Xpack: the pipeline *)

Section PipelineFacts.

Import Xpack.
Local Open Scope xpack_scope.

Lemma downloadBinaries_resolved (w : world) (packagePath cachePath : string)
    (b : binaries) (platform : platform_entry) :
  resolvePlatform w = Some (b, platform) ->
  downloadBinaries w packagePath cachePath
  = (emit (ReadFile (path_join [packagePath; "package.json"])) ;;;
     acquire w packagePath cachePath b platform).
Proof.
  unfold resolvePlatform, downloadBinaries, isFolderPackage.
  destruct (package_json_file w) as [json|]; [|discriminate].
  cbn [mbind option_bind].
  destruct (truthy (name json) && truthy (version json)); [|discriminate].
  cbn [bind emit ret app].
  destruct (xpack json) as [x|]; [|discriminate]. cbn [mbind option_bind].
  destruct (xpack_binaries x) as [b'|]; [|discriminate]. cbn [mbind option_bind].
  destruct (platforms b') as [pfs|]; [|discriminate]. cbn [mbind option_bind].
  destruct (pfs !! platformKey w) as [platform'|]; [|discriminate].
  cbn [mbind option_bind].
  intros [= -> ->]. destruct (acquire _ _ _ _ _). reflexivity.
Qed.

Lemma downloadBinaries_unresolved (w : world) (packagePath cachePath : string) :
  resolvePlatform w = None ->
  exists message,
    downloadBinaries w packagePath cachePath
    = ([ReadFile (path_join [packagePath; "package.json"]);
        Log Debug message], Normal tt).
Proof.
  unfold resolvePlatform, downloadBinaries, isFolderPackage.
  destruct (package_json_file w) as [json|];
    cbn [mbind option_bind bind emit ret app]; [|eauto].
  destruct (truthy (name json) && truthy (version json));
    cbn [mbind option_bind bind emit ret app]; [|eauto].
  destruct (xpack json) as [x|];
    cbn [mbind option_bind bind emit ret app]; [|eauto].
  destruct (xpack_binaries x) as [b'|];
    cbn [mbind option_bind bind emit ret app]; [|eauto].
  destruct (platforms b') as [pfs|];
    cbn [mbind option_bind bind emit ret app]; [|eauto].
  destruct (pfs !! platformKey w) as [platform'|];
    cbn [mbind option_bind bind emit ret app]; [discriminate|eauto].
Qed.

Lemma contentFolderPath_cases (packagePath : string) (b : binaries) :
  (exists folder,
     js_or (destination b) (JStr ".content") = JStr folder
     /\ contentFolderPath packagePath b = ret (path_join [packagePath; folder]))
  \/ ((forall folder, js_or (destination b) (JStr ".content") <> JStr folder)
      /\ contentFolderPath packagePath b = throw TypeError).
Proof.
  unfold contentFolderPath.
  destruct (js_or (destination b) (JStr ".content")); eauto;
    right; split; congruence.
Qed.

Lemma fileUrl_cases (b : binaries) (platform : platform_entry) :
  (exists base,
     js_or (entry_baseUrl platform) (baseUrl b) = JStr base
     /\ fileUrl b platform
        = ret (with_slash base +:+ to_string (fileName platform)))
  \/ fileUrl b platform = throw TypeError.
Proof.
  unfold fileUrl, with_slash.
  destruct (js_or (entry_baseUrl platform) (baseUrl b)); eauto.
Qed.

Lemma integrityDigest_cases (hashAlgorithm hexSum : jsval) :
  (exists digest, integrityDigest hashAlgorithm hexSum = ret digest)
  \/ integrityDigest hashAlgorithm hexSum = throw TypeError.
Proof.
  unfold integrityDigest. destruct (truthy hexSum); [|eauto].
  destruct hexSum; eauto.
Qed.

(** The shape of a run of [acquire]: the five ways it can go. *)
Lemma acquire_cases (w : world) (packagePath cachePath : string)
    (b : binaries) (platform : platform_entry) :
  let run := acquire w packagePath cachePath b platform in
  (truthy (baseUrl b) = false
   /\ run = throw (CliError "Missing xpack.binaries.baseUrl" ERROR_INPUT))
  \/ (truthy (baseUrl b) = true /\ run = throw TypeError)
  \/ (truthy (baseUrl b) = true /\ truthy (entry_skip platform) = true
      /\ run = emit (Log Warn
           "No binaries are available for this platform, command ignored."))
  \/ (truthy (baseUrl b) = true /\ truthy (entry_skip platform) = false
      /\ truthy (fileName platform) = false
      /\ run = throw (CliError ("Missing xpack.binaries.platform["
                 +:+ platformKey w +:+ "].fileName") ERROR_INPUT))
  \/ (exists folder base digest,
        truthy (baseUrl b) = true /\ truthy (entry_skip platform) = false
        /\ truthy (fileName platform) = true
        /\ js_or (entry_baseUrl platform) (baseUrl b) = JStr base
        /\ integrityDigest (fst (hashChoice platform))
             (snd (hashChoice platform)) = ret digest
        /\ run
           = (emit (Log Trace ("expected integrity digest "
                      +:+ to_string digest +:+ " for "
                      +:+ to_string (snd (hashChoice platform)))) ;;;
              emit (Log Trace ("getting cacache info(" +:+ cachePath +:+ ", "
                      +:+ ("xpm:binaries:" +:+ to_string (fileName platform))
                      +:+ ")...")) ;;;
              cacheInfo <- ensureCached w cachePath
                             ("xpm:binaries:" +:+ to_string (fileName platform))
                             (with_slash base
                                +:+ to_string (fileName platform))
                             digest ;;
              extract w b platform (path_join [packagePath; folder])
                cacheInfo)).
Proof.
  cbn zeta. unfold acquire.
  destruct (truthy (baseUrl b)) eqn:Hbase; cbn [negb]; [|auto].
  right.
  destruct (contentFolderPath_cases packagePath b)
    as [(folder & _ & ->)|[_ ->]]; [|left; auto].
  cbn [bind ret throw app].
  destruct (truthy (entry_skip platform)) eqn:Hskip.
  { right; left. repeat split. }
  destruct (truthy (fileName platform)) eqn:Hname; cbn [negb].
  2:{ do 2 right; left. repeat split. }
  destruct (fileUrl_cases b platform) as [(base & Hb & ->)| ->];
    [|left; auto].
  cbn [bind ret throw app].
  destruct (hashChoice platform) as [hashAlgorithm hexSum] eqn:Hhash.
  destruct (integrityDigest_cases hashAlgorithm hexSum) as [(digest & Hd)|Hd];
    rewrite Hd; [|left; auto].
  do 3 right. exists folder, base, digest. cbn [fst snd].
  repeat (split; [first [reflexivity|assumption]|]).
  cbn [bind ret throw app].
  match goal with |- _ = ?m => destruct m end. reflexivity.
Qed.

(** What a run of [ensureCached] can look like. *)
Lemma ensureCached_spec (w : world) (cachePath key url : string)
    (digest : jsval) :
  let run := ensureCached w cachePath key url digest in
  forallb (fun e => negb (is_rimraf e)) (fst run) = true
  /\ (forall entry, snd run = Normal entry ->
        get_info_first w = Ok (Some entry)
        \/ (get_info_first w = Ok None
            /\ get_info_second w = Ok (Some entry)))
  /\ (forall e, snd run = Throw e ->
        e = CliError "Download failed." ERROR_INPUT
        \/ exists what, e = ExternalError what)
  /\ (forall e, In e (fst run) -> is_download e = true ->
        e = RequestPipePutStream url cachePath key
              {| opts_integrity := if truthy digest then digest
                                   else JUndefined |})
  /\ (forall what rest,
        download_events w = PutError what :: rest ->
        existsb is_download (fst run) = true ->
        snd run = Throw (CliError "Download failed." ERROR_INPUT)).
Proof.
  cbn zeta. unfold ensureCached, cacheArchive.
  destruct (get_info_first w) as [[entry|]|what|];
    cbn [await bind emit ret throw try_catch app fst snd].
  1,3,4: ((split; [|split; [|split; [|split]]]);
    [ reflexivity
    | intros ? [=]; subst; auto
    | intros ? [=]; subst; eauto
    | intros e [<-|[]]; discriminate
    | intros ? ? _; discriminate ]).
  destruct (download_events w) as [|ev events];
    [|destruct ev; (destruct events as [|ev' events'])];
    cbn [settlement handler resolve reject handler_log
         await bind emit ret throw try_catch app fst snd];
    destruct (String.eqb (process_platform w) "win32");
    destruct (get_info_second w) as [[entry|]|what2|];
    cbn [await bind emit ret throw try_catch app fst snd];
    ((split; [|split; [|split; [|split]]]);
    [ reflexivity
    | intros ? [=]; subst; auto
    | intros ? [=]; subst; eauto
    | intros e He Hd; cbn [In] in He;
      repeat (destruct He as [<-|He]; [first [discriminate Hd|reflexivity]|]);
      destruct He
    | intros ? ? [=]; subst; first [reflexivity|discriminate] ]).
Qed.

Lemma extract_spec (w : world) (b : binaries) (platform : platform_entry)
    (contentFolderPath : fs_path) (cacheInfo : cache_entry) :
  let run := extract w b platform contentFolderPath cacheInfo in
  existsb is_download (fst run) = false
  /\ (forall e, snd run = Throw e -> exists what, e = ExternalError what)
  /\ (forall p, In (Rimraf p) (fst run) -> p = contentFolderPath).
Proof.
  cbn zeta. unfold extract.
  destruct (rimraf_result w) as [[]|what|];
    cbn [await bind emit ret throw app fst snd];
    [destruct (decompress_result w) as [n|what|];
     cbn [await bind emit ret throw app fst snd]|..];
    ((split; [|split]);
    [ reflexivity
    | intros ? [=]; subst; eauto
    | intros p Hp; cbn [In] in Hp;
      repeat (destruct Hp as [Hp|Hp]; [first [discriminate Hp|congruence]|]);
      destruct Hp ]).
Qed.

(** The part of [acquire] that follows the checks of the manifest. *)
Lemma cached_then_extract_spec (w : world) (b : binaries)
    (platform : platform_entry) (cachePath key url : string)
    (digest : jsval) (dest : fs_path) (l1 l2 : effect) :
  is_download l1 = false -> is_download l2 = false ->
  is_rimraf l1 = false -> is_rimraf l2 = false ->
  let run :=
    (emit l1 ;;; emit l2 ;;;
     cacheInfo <- ensureCached w cachePath key url digest ;;
     extract w b platform dest cacheInfo) in
  (forall e, snd run = Throw e ->
     e = CliError "Download failed." ERROR_INPUT
     \/ exists what, e = ExternalError what)
  /\ (forall e, In e (fst run) -> is_download e = true ->
        e = RequestPipePutStream url cachePath key
              {| opts_integrity := if truthy digest then digest
                                   else JUndefined |})
  /\ (forall what rest,
        download_events w = PutError what :: rest ->
        existsb is_download (fst run) = true ->
        snd run = Throw (CliError "Download failed." ERROR_INPUT)
        /\ forallb (fun e => negb (is_rimraf e)) (fst run) = true)
  /\ (forall p, In (Rimraf p) (fst run) ->
        exists entry,
          get_info_first w = Ok (Some entry)
          \/ (get_info_first w = Ok None
              /\ get_info_second w = Ok (Some entry))).
Proof.
  intros Hd1 Hd2 Hr1 Hr2.
  pose proof (ensureCached_spec w cachePath key url digest) as Hcache.
  cbn zeta in *.
  destruct (ensureCached w cachePath key url digest) as [t r].
  cbn [fst snd] in Hcache.
  destruct Hcache as (Hnorim & Hentry & Hthrow & Hdl & Hrej).
  assert (Hrim_t : forall p, ~ In (Rimraf p) t).
  { intros p Hp. rewrite forallb_forall in Hnorim.
    specialize (Hnorim _ Hp). discriminate. }
  destruct r as [entry|e| |e2]; cbn [bind emit app fst snd].
  3,4: ((split; [|split; [|split]]);
    [ discriminate
    | intros e' [<-|[<-|He]] Hd; [congruence..|]; auto
    | intros what rest Hev Hdown;
      cbn [existsb] in Hdown; rewrite Hd1, Hd2 in Hdown;
      specialize (Hrej _ _ Hev Hdown); discriminate
    | intros p [Hp|[Hp|Hp]];
        [rewrite Hp in Hr1; discriminate|rewrite Hp in Hr2; discriminate|];
      destruct (Hrim_t _ Hp) ]).
  - pose proof (extract_spec w b platform dest entry) as Hex.
    cbn zeta in Hex.
    destruct (extract w b platform dest entry) as [t' r'].
    cbn [fst snd] in *. destruct Hex as (Hnodl & Hthrow' & _).
    split; [|split; [|split]].
    + intros e ->. right. apply Hthrow'. reflexivity.
    + intros e [<-|[<-|He]] Hd; [congruence..|].
      apply in_app_or in He as [He|He]; [auto|].
      assert (existsb is_download t' = true) by (apply existsb_exists; eauto).
      congruence.
    + intros what rest Hev Hdown.
      cbn [existsb] in Hdown. rewrite Hd1, Hd2, existsb_app, Hnodl in Hdown.
      cbn [orb] in Hdown. rewrite orb_false_r in Hdown.
      specialize (Hrej _ _ Hev Hdown). discriminate.
    + intros p _. exists entry. auto.
  - split; [|split; [|split]].
    + intros e' [= <-]. auto.
    + intros e' [<-|[<-|He]] Hd; [congruence..|].
      auto.
    + intros what rest Hev Hdown.
      cbn [existsb forallb] in *. rewrite Hd1, Hd2 in Hdown.
      rewrite Hr1, Hr2, Hnorim. split; [|reflexivity].
      specialize (Hrej _ _ Hev Hdown). congruence.
    + intros p [Hp|[Hp|Hp]];
        [rewrite Hp in Hr1; discriminate|rewrite Hp in Hr2; discriminate|].
      destruct (Hrim_t _ Hp).
Qed.

Lemma bind_emit_run {A} (e : effect) (m : M A) :
  (emit e ;;; m) = (e :: fst m, snd m).
Proof. destruct m. reflexivity. Qed.

(** C1 (as amended): when the resolved platform entry has a truthy
    [skip], [xpack.binaries.baseUrl] is there and the destination is
    missing or a string, [downloadBinaries] reads the manifest, emits the
    warning and returns; whatever [fileName], the [baseUrl] of the entry
    and the checksums hold, they are not looked at. *)
Theorem skip_entry_warns_and_returns (w : world)
    (packagePath cachePath : string) (b : binaries)
    (platform : platform_entry) (folder : string) :
  resolvePlatform w = Some (b, platform) ->
  truthy (entry_skip platform) = true ->
  truthy (baseUrl b) = true ->
  js_or (destination b) (JStr ".content") = JStr folder ->
  downloadBinaries w packagePath cachePath
  = ([ReadFile (path_join [packagePath; "package.json"]);
      Log Warn "No binaries are available for this platform, command ignored."],
     Normal tt).
Proof.
  intros Hres Hskip Hbase Hdest.
  rewrite (downloadBinaries_resolved _ _ _ _ _ Hres), bind_emit_run.
  unfold acquire, contentFolderPath. rewrite Hbase, Hdest, Hskip.
  reflexivity.
Qed.

Lemma skip_entry_warns_and_returns_witness :
  downloadBinaries
    (sample_world
       (sample_binaries (JStr "https://fallback.com/") JUndefined
          skipped_entry)
       None [] None)
    "/pkg" "/cache"
  = ([ReadFile (path_join ["/pkg"; "package.json"]);
      Log Warn "No binaries are available for this platform, command ignored."],
     Normal tt).
Proof.
  apply (skip_entry_warns_and_returns
           (sample_world
              (sample_binaries (JStr "https://fallback.com/") JUndefined
                 skipped_entry)
              None [] None)
           "/pkg" "/cache"
           (sample_binaries (JStr "https://fallback.com/") JUndefined
              skipped_entry)
           skipped_entry ".content"); reflexivity.
Defined.

(** C1 as stated fails: [baseUrl] is checked before [skip], so an entry
    with [skip: true] in a manifest without [xpack.binaries.baseUrl] ends
    with the missing-baseUrl error, not with the warning. *)
Lemma skip_entry_without_baseUrl_counterexample :
  downloadBinaries
    (sample_world
       (sample_binaries JUndefined JUndefined
          {| fileName := JStr "x.tar.gz"; entry_baseUrl := JUndefined;
             sha256 := JUndefined; sha512 := JUndefined;
             entry_skip := JBool true |})
       None [] None)
    "/pkg" "/cache"
  = ([ReadFile (path_join ["/pkg"; "package.json"])],
     Throw (CliError "Missing xpack.binaries.baseUrl" ERROR_INPUT)).
Proof. reflexivity. Qed.

(** C5 (as amended): [downloadBinaries] ends with the missing-baseUrl
    error exactly when it resolves a platform entry and
    [xpack.binaries.baseUrl] is missing (falsy); a [baseUrl] of the entry
    does not make up for it. *)
Theorem missing_baseUrl_iff (w : world) (packagePath cachePath : string) :
  snd (downloadBinaries w packagePath cachePath)
    = Throw (CliError "Missing xpack.binaries.baseUrl" ERROR_INPUT)
  <-> exists b platform,
        resolvePlatform w = Some (b, platform) /\ truthy (baseUrl b) = false.
Proof.
  destruct (resolvePlatform w) as [[b platform]|] eqn:Hres.
  2:{ destruct (downloadBinaries_unresolved w packagePath cachePath Hres)
        as [message ->].
      split; [discriminate|]. intros (? & ? & [=] & _). }
  rewrite (downloadBinaries_resolved _ _ _ _ _ Hres), bind_emit_run.
  cbn [snd]. split.
  - intros Hthrow. exists b, platform. split; [reflexivity|].
    destruct (acquire_cases w packagePath cachePath b platform)
      as [[Hb _]|[[_ Hrun]|[(_ & _ & Hrun)|[(_ & _ & _ & Hrun)
         |(folder & base & digest & _ & _ & _ & _ & _ & Hrun)]]]];
      [exact Hb|exfalso; cbn zeta in Hrun; rewrite Hrun in Hthrow..].
    + discriminate.
    + discriminate.
    + cbn [throw snd] in Hthrow. discriminate.
    + eapply cached_then_extract_spec in Hthrow; try reflexivity.
      destruct Hthrow as [?|[? ?]]; discriminate.
  - intros (b' & platform' & [= <- <-] & Hb).
    unfold acquire. rewrite Hb. reflexivity.
Qed.

(** C5 as stated fails: the entry has its own [baseUrl], the manifest has
    no [xpack.binaries.baseUrl], and the operation fails all the same. *)
Lemma entry_baseUrl_does_not_rescue_counterexample :
  downloadBinaries
    (sample_world (sample_binaries JUndefined JUndefined sample_entry)
       None [PutIntegrity "sha256-47DEQpj8"] (Some sample_cached))
    "/pkg" "/cache"
  = ([ReadFile (path_join ["/pkg"; "package.json"])],
     Throw (CliError "Missing xpack.binaries.baseUrl" ERROR_INPUT))
  /\ entry_baseUrl sample_entry = JStr "https://example.com".
Proof. split; reflexivity. Qed.

(** The download, when there is one, is made with the URL of [fileUrl],
    and with the digest of [integrityDigest] as the expected integrity. *)
Lemma download_effect (w : world) (packagePath cachePath : string)
    (b : binaries) (platform : platform_entry) (e : effect) :
  resolvePlatform w = Some (b, platform) ->
  In e (fst (downloadBinaries w packagePath cachePath)) ->
  is_download e = true ->
  exists base digest,
    js_or (entry_baseUrl platform) (baseUrl b) = JStr base
    /\ integrityDigest (fst (hashChoice platform)) (snd (hashChoice platform))
       = ret digest
    /\ e = RequestPipePutStream
             (with_slash base +:+ to_string (fileName platform)) cachePath
             ("xpm:binaries:" +:+ to_string (fileName platform))
             {| opts_integrity := if truthy digest then digest
                                  else JUndefined |}.
Proof.
  intros Hres. rewrite (downloadBinaries_resolved _ _ _ _ _ Hres), bind_emit_run.
  cbn [fst]. intros [<-|He] Hd; [discriminate|].
  destruct (acquire_cases w packagePath cachePath b platform)
    as [[_ Hrun]|[[_ Hrun]|[(_ & _ & Hrun)|[(_ & _ & _ & Hrun)
       |(folder & base & digest & _ & _ & _ & Hbase & Hdigest & Hrun)]]]];
    cbn zeta in Hrun; rewrite Hrun in He.
  1,2,4: destruct He.
  - destruct He as [<-|[]]. discriminate.
  - exists base, digest. repeat (split; [assumption|]).
    eapply cached_then_extract_spec in He; try reflexivity; assumption.
Qed.



(** What [hex_decode] reads. *)
Lemma unhex_digit (a : ascii) (x : Z) :
  unhex a = Some x -> 0 <= x < 16 /\ hex_digit x = lower a.
Proof.
  destruct a as [[] [] [] [] [] [] [] []]; vm_compute;
    intros H; first [discriminate H|injection H as <-];
    (split; [split; [discriminate|reflexivity]|reflexivity]).
Qed.

Lemma nibbles_byte (x y : Z) :
  0 <= x < 16 -> 0 <= y < 16 ->
  let byte := Z.lor (Z.shiftl x 4) y in
  0 <= byte < 256
  /\ hex_digit (Z.shiftr byte 4) = hex_digit x
  /\ hex_digit (Z.land byte 15) = hex_digit y.
Proof.
  intros Hx Hy.
  assert (Hxs : In x [0; 1; 2; 3; 4; 5; 6; 7; 8; 9; 10; 11; 12; 13; 14; 15])
    by (cbn [In]; lia).
  assert (Hys : In y [0; 1; 2; 3; 4; 5; 6; 7; 8; 9; 10; 11; 12; 13; 14; 15])
    by (cbn [In]; lia).
  clear Hx Hy. cbn [In] in Hxs, Hys.
  repeat (destruct Hxs as [<-|Hxs];
          [repeat (destruct Hys as [<-|Hys];
                   [vm_compute;
                    (split; [split; [discriminate|reflexivity]
                            |split; reflexivity])|]);
           destruct Hys|]).
  destruct Hxs.
Qed.

Lemma hex_decode_no_pair (s : string) :
  begins_with_pair s = false -> hex_decode s = [].
Proof.
  destruct s as [|a [|b s]]; cbn; try reflexivity.
  destruct (unhex a), (unhex b); first [discriminate|reflexivity].
Qed.

Lemma hex_decode_bytes (s : string) :
  well_formed_hex s = true ->
  hex_encode (hex_decode s) = lowercase s
  /\ Forall (fun byte => 0 <= byte < 256) (hex_decode s).
Proof.
  revert s. fix IH 1. intros [|a [|b s]]; cbn [well_formed_hex]; intros H.
  - split; [reflexivity|constructor].
  - discriminate.
  - cbn [hex_decode].
    destruct (unhex a) as [x|] eqn:Ha; [|discriminate].
    destruct (unhex b) as [y|] eqn:Hb; [|discriminate].
    destruct (unhex_digit _ _ Ha) as [Hx Hxa].
    destruct (unhex_digit _ _ Hb) as [Hy Hyb].
    destruct (nibbles_byte x y Hx Hy) as (Hbyte & Hhigh & Hlow).
    cbn zeta in *. destruct (IH s H) as [Hs Hrange].
    cbn [hex_encode lowercase].
    rewrite Hhigh, Hlow, Hxa, Hyb, Hs.
    split; [reflexivity|constructor; assumption].
Qed.

Lemma hex_split (s : string) :
  exists good rest,
    s = good +:+ rest
    /\ well_formed_hex good = true
    /\ begins_with_pair rest = false.
Proof.
  revert s. fix IH 1. intros [|a [|b s]].
  - exists "", "". repeat split.
  - exists "", (String a ""). repeat split.
  - destruct (begins_with_pair (String a (String b s))) eqn:Hpair.
    + destruct (IH s) as (good & rest & Hs & Hgood & Hrest).
      exists (String a (String b good)), rest.
      split; [rewrite Hs; reflexivity|]. split; [|exact Hrest].
      cbn [begins_with_pair well_formed_hex] in *.
      destruct (unhex a); [|discriminate].
      destruct (unhex b); [|discriminate]. exact Hgood.
    + exists "", (String a (String b s)). repeat split. exact Hpair.
Qed.

(** C6 (as amended): on a checksum string that is not empty, well formed
    or not, the integrity-encoding step does not fail and validates
    nothing (with the [Buffer] of Node.js 8 and later, which truncates).
    The string splits, in one way, into pairs of hexadecimal digits
    followed by a rest that does not begin with such a pair (it is empty,
    a single character, or begins with a character that is not a
    hexadecimal digit); the bytes decoded are those the pairs write, the
    rest is dropped, and the result is ["<algorithm>-<base64>"] of these
    bytes, which is also what a download is checked against. *)
Theorem integrityDigest_never_fails (algorithm hex : string) :
  nonempty hex = true ->
  (exists good rest,
     hex = good +:+ rest
     /\ well_formed_hex good = true
     /\ begins_with_pair rest = false)
  /\ (forall good rest,
        hex = good +:+ rest ->
        well_formed_hex good = true ->
        begins_with_pair rest = false ->
        hex_decode hex = hex_decode good
        /\ hex_encode (hex_decode good) = lowercase good
        /\ Forall (fun byte => 0 <= byte < 256) (hex_decode good)
        /\ integrityDigest (JStr algorithm) (JStr hex)
           = ret (JStr (algorithm +:+ "-" +:+ base64 (hex_decode good)))
        /\ (forall w packagePath cachePath b platform url cachePath' key
                   opts,
              resolvePlatform w = Some (b, platform) ->
              sha256 platform = JStr hex ->
              In (RequestPipePutStream url cachePath' key opts)
                 (fst (downloadBinaries w packagePath cachePath)) ->
              opts_integrity opts
              = JStr ("sha256-" +:+ base64 (hex_decode good)))).
Proof.
  intros Hne. split; [apply hex_split|].
  intros good rest Hhex Hgood Hrest.
  assert (Hdecode : hex_decode hex = hex_decode good).
  { rewrite Hhex, (hex_decode_well_formed_prefix _ _ Hgood),
      (hex_decode_no_pair _ Hrest). apply app_nil_r. }
  destruct (hex_decode_bytes good Hgood) as [Hbytes Hrange].
  split; [exact Hdecode|]. split; [exact Hbytes|]. split; [exact Hrange|].
  split.
  - unfold integrityDigest. cbn [truthy to_string]. rewrite Hne, Hdecode.
    reflexivity.
  - intros w packagePath cachePath b platform url cachePath' key opts
      Hres Hsha He.
    destruct (download_effect _ _ _ _ _ _ Hres He eq_refl)
      as (base & digest & _ & Hdigest & [= _ _ _ ->]).
    cbn [opts_integrity]. unfold hashChoice, integrityDigest in Hdigest.
    rewrite Hsha in Hdigest. cbn [truthy fst snd] in Hdigest.
    rewrite Hne in Hdigest. cbn [truthy fst snd] in Hdigest.
    rewrite Hne, Hdecode in Hdigest.
    injection Hdigest as <-. reflexivity.
Qed.

Lemma integrityDigest_never_fails_witness :
  hex_decode "666f6" = [102; 111]
  /\ integrityDigest (JStr "sha256") (JStr "666f6")
     = ret (JStr "sha256-Zm8=").
Proof.
  destruct (integrityDigest_never_fails "sha256" "666f6" eq_refl)
    as [_ Hsplit].
  destruct (Hsplit "666f" "6" eq_refl eq_refl eq_refl)
    as (Hdecode & _ & _ & Hdigest & _).
  split; [exact Hdecode|exact Hdigest].
Defined.

(** C6 as stated fails: a checksum that is not hexadecimal at all is
    encoded, as the encoding of no bytes, and no error is raised; one
    that is a character short loses its last byte, and the download is
    checked against the digest of what is left. *)
Lemma integrityDigest_malformed_counterexample :
  well_formed_hex "zz" = false
  /\ integrityDigest (JStr "sha256") (JStr "zz") = ret (JStr "sha256-")
  /\ well_formed_hex "666f6" = false
  /\ downloadBinaries
       (sample_world
          (sample_binaries (JStr "https://fallback.com/") JUndefined
             truncated_entry)
          None [PutError "EINTEGRITY"] None)
       "/pkg" "/cache"
     = ([ReadFile (path_join ["/pkg"; "package.json"]);
         Log Trace "expected integrity digest sha256-Zm8= for 666f6";
         Log Trace ("getting cacache info(/cache, "
                      +:+ "xpm:binaries:x.tar.gz)...");
         CacheGetInfo "/cache" "xpm:binaries:x.tar.gz";
         Log Info "Downloading https://fallback.com/x.tar.gz...";
         RequestPipePutStream "https://fallback.com/x.tar.gz" "/cache"
           "xpm:binaries:x.tar.gz" {| opts_integrity := JStr "sha256-Zm8=" |};
         Log Trace "cacache.put.stream error";
         Log Trace "cacheArchive pipe error";
         LogError Info (ExternalError "EINTEGRITY")],
        Throw (CliError "Download failed." ERROR_INPUT)).
Proof. repeat split. Qed.

Lemma append_cons (a : ascii) (s t : string) :
  String a s +:+ t = String a (s +:+ t).
Proof. reflexivity. Qed.

Lemma append_append (s t u : string) : (s +:+ t) +:+ u = s +:+ t +:+ u.
Proof.
  induction s as [|a s IH]; [reflexivity|].
  rewrite !append_cons, IH. reflexivity.
Qed.

(** [endsWith] is what its name says. *)
Lemma endsWith_suffix (c : ascii) (s : string) :
  endsWith c s = true <-> exists prefix, s = prefix +:+ String c "".
Proof.
  split.
  - induction s as [|a s IH]; [discriminate|].
    destruct s as [|b s'].
    + cbn [endsWith]. intros H. apply Ascii.eqb_eq in H as ->.
      exists "". reflexivity.
    + intros H. destruct (IH H) as [prefix Hp].
      exists (String a prefix). rewrite Hp. reflexivity.
  - intros [prefix ->]. induction prefix as [|a prefix IH].
    + apply Ascii.eqb_refl.
    + change (String a prefix +:+ String c "")
        with (String a (prefix +:+ String c "")).
      destruct prefix as [|b prefix]; exact IH.
Qed.

Lemma ends_in_endsWith (c : ascii) (s : string) :
  ends_in c s = endsWith c s.
Proof.
  unfold ends_in, last_char.
  induction s as [|a s IH]; [reflexivity|].
  destruct s as [|b s']; [reflexivity|].
  change (endsWith c (String a (String b s')))
    with (endsWith c (String b s')).
  rewrite <- IH.
  cbn [String.length Nat.sub String.get]. rewrite Nat.sub_0_r.
  reflexivity.
Qed.

(** C9 (as amended): the URL of the archive is the effective base, with
    a [/] appended unless it ends with one, followed by the file name.
    The effective base is the [baseUrl] of the entry when that is a
    string that is not empty, and [xpack.binaries.baseUrl] when the entry
    has none, a [null] one, an empty one or another falsy one. This
    agrees with the [??] of the specification unless the [baseUrl] of the
    entry is there and falsy, and it is the URL the download is made
    with. *)
Theorem fileUrl_assembly (b : binaries) (platform : platform_entry)
    (base : string) :
  (entry_baseUrl platform = JStr base /\ base <> ""
   \/ In (entry_baseUrl platform)
        [JUndefined; JNull; JStr ""; JBool false; JNum 0; JNaN]
      /\ baseUrl b = JStr base) ->
  (forall prefix, base = prefix +:+ "/" ->
     fileUrl b platform = ret (base +:+ to_string (fileName platform)))
  /\ ((forall prefix, base <> prefix +:+ "/") ->
      fileUrl b platform
      = ret (base +:+ "/" +:+ to_string (fileName platform)))
  /\ (nullish (entry_baseUrl platform) = true
      \/ entry_baseUrl platform = JStr base ->
      exists url,
        fileUrl b platform = ret url /\ spec_fileUrl b platform = Some url)
  /\ fileUrl (sample_binaries (JStr "https://fallback.com/") JUndefined
                sample_entry) sample_entry
     = ret "https://example.com/x.tar.gz"
  /\ (forall w packagePath cachePath url cachePath' key opts,
        resolvePlatform w = Some (b, platform) ->
        In (RequestPipePutStream url cachePath' key opts)
           (fst (downloadBinaries w packagePath cachePath)) ->
        fileUrl b platform = ret url).
Proof.
  intros Hbase.
  assert (Hor : js_or (entry_baseUrl platform) (baseUrl b) = JStr base).
  { unfold js_or.
    destruct Hbase as [[-> Hne]|[Hin ->]].
    - destruct base; [contradiction|reflexivity].
    - cbn [In] in Hin.
      repeat (destruct Hin as [<-|Hin]; [reflexivity|]). destruct Hin. }
  assert (Hurl : fileUrl b platform
                 = ret ((if endsWith "/" base then base else base +:+ "/")
                          +:+ to_string (fileName platform))).
  { unfold fileUrl. rewrite Hor. reflexivity. }
  split; [|split; [|split; [|split]]].
  - intros prefix Hprefix. rewrite Hurl.
    replace (endsWith "/" base) with true; [reflexivity|].
    symmetry. apply endsWith_suffix. exists prefix. exact Hprefix.
  - intros Hnone. rewrite Hurl.
    destruct (endsWith "/" base) eqn:Hends.
    + apply endsWith_suffix in Hends as [prefix Hprefix].
      destruct (Hnone prefix Hprefix).
    + apply f_equal, append_append.
  - intros Hspec. eexists. split; [exact Hurl|].
    unfold spec_fileUrl, spec_effectiveBase.
    assert (Heff : (if nullish (entry_baseUrl platform) then baseUrl b
                    else entry_baseUrl platform) = JStr base).
    { destruct Hspec as [Hnull| ->]; [|reflexivity].
      rewrite Hnull.
      destruct Hbase as [[Hentry _]|[_ Htop]]; [|exact Htop].
      rewrite Hentry in Hnull. discriminate. }
    rewrite Heff, ends_in_endsWith. reflexivity.
  - reflexivity.
  - intros w packagePath cachePath url cachePath' key opts Hres He.
    destruct (download_effect _ _ _ _ _ _ Hres He eq_refl)
      as (base' & digest & Hbase' & _ & [= -> _ _ _]).
    unfold fileUrl. rewrite Hbase'. reflexivity.
Qed.

Lemma fileUrl_assembly_witness :
  fileUrl (sample_binaries (JStr "https://fallback.com/") JUndefined
             plain_entry) plain_entry
  = ret "https://fallback.com/y.zip"
  /\ fileUrl (sample_binaries (JStr "https://fallback.com") JUndefined
                plain_entry) plain_entry
     = ret "https://fallback.com/y.zip"
  /\ fileUrl (sample_binaries (JStr "https://fallback.com/") JUndefined
                sample_entry) sample_entry
     = ret "https://example.com/x.tar.gz".
Proof.
  split; [|split].
  - destruct (fileUrl_assembly
                (sample_binaries (JStr "https://fallback.com/") JUndefined
                   plain_entry) plain_entry "https://fallback.com/")
      as (Hslash & _).
    + right. split; [left|]; reflexivity.
    + apply (Hslash "https://fallback.com"). reflexivity.
  - destruct (fileUrl_assembly
                (sample_binaries (JStr "https://fallback.com") JUndefined
                   plain_entry) plain_entry "https://fallback.com")
      as (_ & Hnoslash & _).
    + right. split; [left|]; reflexivity.
    + apply Hnoslash. intros prefix Hprefix.
      assert (Hends : endsWith "/" "https://fallback.com" = true)
        by (apply endsWith_suffix; exists prefix; exact Hprefix).
      discriminate Hends.
  - destruct (fileUrl_assembly
                (sample_binaries (JStr "https://fallback.com/") JUndefined
                   sample_entry) sample_entry "https://example.com")
      as (_ & Hnoslash & _).
    + left. split; [reflexivity|discriminate].
    + apply Hnoslash. intros prefix Hprefix.
      assert (Hends : endsWith "/" "https://example.com" = true)
        by (apply endsWith_suffix; exists prefix; exact Hprefix).
      discriminate Hends.
Defined.

(** C9 as stated fails: an entry whose [baseUrl] is the empty string has
    one, and [??] keeps it, which gives [/x.tar.gz]; the code tests it
    with [||] and takes [xpack.binaries.baseUrl]. *)
Lemma fileUrl_empty_override_counterexample :
  entry_baseUrl empty_override_entry = JStr ""
  /\ spec_fileUrl
       (sample_binaries (JStr "https://fallback.com/") JUndefined
          empty_override_entry) empty_override_entry
     = Some "/x.tar.gz"
  /\ fileUrl
       (sample_binaries (JStr "https://fallback.com/") JUndefined
          empty_override_entry) empty_override_entry
     = ret "https://fallback.com/x.tar.gz".
Proof. repeat split. Qed.

End PipelineFacts.

(** ** ManifestId: further properties *)

Section ManifestIdMoreFacts.

Import ManifestId ManifestIdPaths.

(** The parse of a scoped descriptor whose scope and name have no
    separator inside, without and with a version part. *)
Lemma constructor_scoped_parts (sc nm : string) (fallback : jsval) :
  occurs "/" sc = false -> occurs "/" nm = false -> occurs "@" nm = false ->
  constructor {| _from := JStr ("@" +:+ sc +:+ "/" +:+ nm);
                 manifest_version := fallback |}
  = Normal {| scope := JStr ("@" +:+ sc); name := JStr nm;
              version := fallback |}
  /\ forall ver,
       occurs "/" ver = false -> occurs "@" ver = false ->
       constructor {| _from := JStr ("@" +:+ sc +:+ "/" +:+ nm +:+ "@" +:+ ver);
                      manifest_version := fallback |}
       = Normal {| scope := JStr ("@" +:+ sc); name := JStr nm;
                   version := js_or (JStr ver) fallback |}.
Proof.
  intros Hsc Hnm_slash Hnm_at. split; [|intros ver Hver_slash Hver_at];
    rewrite constructor_unfold.
  - change (startsWith "@" ("@" +:+ sc +:+ "/" +:+ nm)) with true.
    change ("@" +:+ sc +:+ "/" +:+ nm) with (String "@" (sc +:+ String "/" nm)).
    cbn [after before]. change (Ascii.eqb "@" "/") with false. cbn iota.
    rewrite (after_app "/" sc _ Hsc), (before_app "/" sc _ Hsc). cbn zeta.
    rewrite (before_absent "/" nm Hnm_slash), (before_absent "@" nm Hnm_at),
      (after_absent "@" nm Hnm_at).
    reflexivity.
  - change (startsWith "@" ("@" +:+ sc +:+ "/" +:+ nm +:+ "@" +:+ ver)) with true.
    change ("@" +:+ sc +:+ "/" +:+ nm +:+ "@" +:+ ver)
      with (String "@" (sc +:+ String "/" (nm +:+ String "@" ver))).
    cbn [after before]. change (Ascii.eqb "@" "/") with false. cbn iota.
    rewrite (after_app "/" sc _ Hsc), (before_app "/" sc _ Hsc). cbn zeta.
    rewrite (before_absent "/" (nm +:+ String "@" ver)).
    2:{ rewrite occurs_app, Hnm_slash. simpl. exact Hver_slash. }
    rewrite (after_app "@" nm _ Hnm_at), (before_app "@" nm _ Hnm_at).
    cbn [fmap option_fmap option_map of_option].
    rewrite (before_absent "@" ver Hver_at). reflexivity.
Qed.

(** The same for a descriptor that does not start with [@]. *)
Lemma constructor_unscoped_parts (nm : string) (fallback : jsval) :
  nonempty nm = true -> occurs "@" nm = false ->
  constructor {| _from := JStr nm; manifest_version := fallback |}
  = Normal {| scope := JUndefined; name := JStr nm; version := fallback |}
  /\ forall ver,
       occurs "@" ver = false ->
       constructor {| _from := JStr (nm +:+ "@" +:+ ver);
                      manifest_version := fallback |}
       = Normal {| scope := JUndefined; name := JStr nm;
                   version := js_or (JStr ver) fallback |}.
Proof.
  intros Hne Hat.
  assert (Hunscoped : forall tail, startsWith "@" (nm +:+ tail) = false).
  { intros tail. destruct nm as [|a nm]; [discriminate|].
    change (String a nm +:+ tail) with (String a (nm +:+ tail)).
    cbn [startsWith occurs] in *. rewrite Ascii.eqb_sym.
    destruct (Ascii.eqb a "@"); [discriminate|reflexivity]. }
  split; [|intros ver Hver]; rewrite constructor_unfold.
  - assert (Hnm : startsWith "@" nm = false).
    { destruct nm as [|a nm]; [discriminate|].
      cbn [startsWith occurs] in *. rewrite Ascii.eqb_sym.
      destruct (Ascii.eqb a "@"); [discriminate|reflexivity]. }
    rewrite Hnm, (before_absent "@" nm Hat), (after_absent "@" nm Hat).
    reflexivity.
  - rewrite Hunscoped.
    change (nm +:+ "@" +:+ ver) with (nm +:+ String "@" ver).
    rewrite (after_app "@" nm _ Hat), (before_app "@" nm _ Hat).
    cbn [fmap option_fmap option_map of_option].
    rewrite (before_absent "@" ver Hver). reflexivity.
Qed.

Lemma append_empty_r (s : string) : s +:+ "" = s.
Proof.
  induction s as [|a s IH]; [reflexivity|].
  change (String a s +:+ "") with (String a (s +:+ "")). rewrite IH.
  reflexivity.
Qed.

(** X1: a descriptor that gives no version, or an empty one after the
    [@], gets the version of the manifest, whatever that is, scoped or
    not. *)
Theorem version_falls_back (nm : string) (fallback : jsval) :
  nonempty nm = true -> occurs "@" nm = false -> occurs "/" nm = false ->
  (forall suffix, suffix = "" \/ suffix = "@" ->
     constructor {| _from := JStr (nm +:+ suffix);
                    manifest_version := fallback |}
     = Normal {| scope := JUndefined; name := JStr nm;
                 version := fallback |})
  /\ (forall sc suffix, occurs "/" sc = false ->
        suffix = "" \/ suffix = "@" ->
        constructor {| _from := JStr ("@" +:+ sc +:+ "/" +:+ nm +:+ suffix);
                       manifest_version := fallback |}
        = Normal {| scope := JStr ("@" +:+ sc); name := JStr nm;
                    version := fallback |}).
Proof.
  intros Hne Hat Hslash.
  destruct (constructor_unscoped_parts nm fallback Hne Hat) as [Hbare Hver].
  split.
  - intros suffix [-> | ->].
    + rewrite append_empty_r. exact Hbare.
    + apply (Hver "" eq_refl).
  - intros sc suffix Hsc Hsuffix.
    destruct (constructor_scoped_parts sc nm fallback Hsc Hslash Hat)
      as [Hbare' Hver'].
    destruct Hsuffix as [-> | ->].
    + rewrite append_empty_r. exact Hbare'.
    + apply (Hver' "" eq_refl eq_refl).
Qed.

Lemma version_falls_back_witness :
  constructor {| _from := JStr "name@"; manifest_version := JStr "0.0.1" |}
  = Normal {| scope := JUndefined; name := JStr "name";
              version := JStr "0.0.1" |}
  /\ constructor {| _from := JStr "@scope/name";
                    manifest_version := JStr "0.0.1" |}
     = Normal {| scope := JStr "@scope"; name := JStr "name";
                 version := JStr "0.0.1" |}.
Proof.
  destruct (version_falls_back "name" (JStr "0.0.1") eq_refl eq_refl eq_refl)
    as [Hunscoped Hscoped].
  split.
  - apply (Hunscoped "@"). right. reflexivity.
  - apply (Hscoped "scope" "" eq_refl). left. reflexivity.
Defined.

(** X2: the folder name of [@scope/name@version] is [scope-name], a
    single segment without [/]; the unscoped package [scope-name] gets the
    same folder name, so the folder name does not tell the two apart. *)
Theorem getFolderName_flattens (sc nm ver : string) (fallback : jsval) :
  plain_part sc = true -> plain_part nm = true -> plain_part ver = true ->
  exists i j,
    constructor {| _from := JStr ("@" +:+ sc +:+ "/" +:+ nm +:+ "@" +:+ ver);
                   manifest_version := fallback |} = Normal i
    /\ constructor {| _from := JStr ((sc +:+ "-" +:+ nm) +:+ "@" +:+ ver);
                      manifest_version := fallback |} = Normal j
    /\ i <> j
    /\ getFolderName i = Normal (sc +:+ "-" +:+ nm)
    /\ getFolderName j = Normal (sc +:+ "-" +:+ nm)
    /\ occurs "/" (sc +:+ "-" +:+ nm) = false.
Proof.
  intros Hsc Hnm Hver.
  apply plain_part_inv in Hsc as (Hsc_ne & Hsc_at & Hsc_slash).
  apply plain_part_inv in Hnm as (Hnm_ne & Hnm_at & Hnm_slash).
  apply plain_part_inv in Hver as (Hver_ne & Hver_at & Hver_slash).
  assert (Hflat_at : occurs "@" (sc +:+ "-" +:+ nm) = false).
  { rewrite occurs_app, Hsc_at. simpl. exact Hnm_at. }
  assert (Hflat_slash : occurs "/" (sc +:+ "-" +:+ nm) = false).
  { rewrite occurs_app, Hsc_slash. simpl. exact Hnm_slash. }
  assert (Hflat_ne : nonempty (sc +:+ "-" +:+ nm) = true).
  { destruct sc; [discriminate|reflexivity]. }
  destruct (constructor_scoped_parts sc nm fallback Hsc_slash Hnm_slash Hnm_at)
    as [_ Hscoped].
  destruct (constructor_unscoped_parts _ fallback Hflat_ne Hflat_at)
    as [_ Hunscoped].
  eexists; eexists.
  split; [apply (Hscoped ver Hver_slash Hver_at)|].
  split; [apply (Hunscoped ver Hver_at)|].
  split; [discriminate|].
  repeat split; try reflexivity. exact Hflat_slash.
Qed.

Lemma getFolderName_flattens_witness :
  exists i j,
    constructor {| _from := JStr "@foo/bar@1.2.3";
                   manifest_version := JUndefined |} = Normal i
    /\ constructor {| _from := JStr "foo-bar@1.2.3";
                      manifest_version := JUndefined |} = Normal j
    /\ i <> j
    /\ getFolderName i = Normal "foo-bar"
    /\ getFolderName j = Normal "foo-bar"
    /\ occurs "/" "foo-bar" = false.
Proof.
  apply (getFolderName_flattens "foo" "bar" "1.2.3" JUndefined); reflexivity.
Defined.

(** X3: for [@scope/name@version] and [name@version] with plain parts,
    [getPath] and [getPosixPath] join the same segments, scope (with its
    [@]), name and version, the scope left out when there is none. *)
Theorem paths_of_parsed_descriptor (nm ver : string) (fallback : jsval) :
  plain_part nm = true -> plain_part ver = true ->
  (forall sc, plain_part sc = true ->
     exists i,
       constructor {| _from := JStr ("@" +:+ sc +:+ "/" +:+ nm +:+ "@" +:+ ver);
                      manifest_version := fallback |} = Normal i
       /\ getPath i = Normal (NativeJoin ["@" +:+ sc; nm; ver])
       /\ getPosixPath i = Normal (PosixJoin ["@" +:+ sc; nm; ver]))
  /\ (exists i,
        constructor {| _from := JStr (nm +:+ "@" +:+ ver);
                       manifest_version := fallback |} = Normal i
        /\ getPath i = Normal (NativeJoin [nm; ver])
        /\ getPosixPath i = Normal (PosixJoin [nm; ver])).
Proof.
  intros Hnm Hver.
  apply plain_part_inv in Hnm as (Hnm_ne & Hnm_at & Hnm_slash).
  apply plain_part_inv in Hver as (Hver_ne & Hver_at & Hver_slash).
  assert (Hver_or : js_or (JStr ver) fallback = JStr ver).
  { unfold js_or. simpl. rewrite Hver_ne. reflexivity. }
  split.
  - intros sc Hsc. apply plain_part_inv in Hsc as (_ & _ & Hsc_slash).
    destruct (constructor_scoped_parts sc nm fallback Hsc_slash Hnm_slash
                Hnm_at) as [_ Hscoped].
    eexists. split; [apply (Hscoped ver Hver_slash Hver_at)|].
    rewrite Hver_or. split; reflexivity.
  - destruct (constructor_unscoped_parts nm fallback Hnm_ne Hnm_at)
      as [_ Hunscoped].
    eexists. split; [apply (Hunscoped ver Hver_at)|].
    rewrite Hver_or. split; reflexivity.
Qed.

Lemma paths_of_parsed_descriptor_witness :
  exists i,
    constructor {| _from := JStr "@scope/name@1.2.3";
                   manifest_version := JUndefined |} = Normal i
    /\ getPath i = Normal (NativeJoin ["@scope"; "name"; "1.2.3"])
    /\ getPosixPath i = Normal (PosixJoin ["@scope"; "name"; "1.2.3"]).
Proof.
  destruct (paths_of_parsed_descriptor "name" "1.2.3" JUndefined
              eq_refl eq_refl) as [Hscoped _].
  apply (Hscoped "scope" eq_refl).
Defined.

(** X4: when neither the descriptor nor the manifest gives a version,
    the identifier is built with an undefined version: [getFullName]
    renders it as [name@undefined], and [getPath] and [getPosixPath] throw
    a TypeError. *)
Theorem no_version_anywhere (nm : string) :
  nonempty nm = true -> occurs "@" nm = false ->
  exists i,
    constructor {| _from := JStr nm; manifest_version := JUndefined |}
    = Normal i
    /\ version i = JUndefined
    /\ getFullName i = nm +:+ "@undefined"
    /\ getPath i = Throw TypeError
    /\ getPosixPath i = Throw TypeError.
Proof.
  intros Hne Hat.
  destruct (constructor_unscoped_parts nm JUndefined Hne Hat) as [Hbare _].
  eexists. split; [exact Hbare|]. repeat split; reflexivity.
Qed.

Lemma no_version_anywhere_witness :
  exists i,
    constructor {| _from := JStr "name"; manifest_version := JUndefined |}
    = Normal i
    /\ version i = JUndefined
    /\ getFullName i = "name@undefined"
    /\ getPath i = Throw TypeError
    /\ getPosixPath i = Throw TypeError.
Proof. apply (no_version_anywhere "name"); reflexivity. Defined.

End ManifestIdMoreFacts.

(** ** Xpack.skipRecursive *)

Section SkipRecursiveFacts.

Import Xpack SkipRecursive.

Lemma node_induction (P : node -> Prop) :
  P File ->
  (forall children,
     Forall (fun entry => P (snd entry)) children -> P (Folder children)) ->
  (forall what, P (Unreadable what)) ->
  P Unanswered ->
  forall tree, P tree.
Proof.
  intros Hfile Hfolder Hunreadable Hunanswered.
  refine (fix IH (tree : node) : P tree :=
            match tree with
            | File => Hfile
            | Unreadable what => Hunreadable what
            | Unanswered => Hunanswered
            | Folder children =>
                Hfolder children
                  ((fix all (l : list (string * node))
                      : Forall (fun entry => P (snd entry)) l :=
                      match l with
                      | [] => List.Forall_nil _
                      | entry :: l' =>
                          List.Forall_cons _ _ _ (IH (snd entry)) (all l')
                      end) children)
            end).
Qed.

Lemma then_run_trace (P : fs_effect -> Prop) (r k : run) :
  Forall P (fst r) -> Forall P (fst k) -> Forall P (fst (then_run r k)).
Proof.
  destruct r as [t [[]|e| |e2]], k as [t' c]; cbn [then_run fst];
    intros Hr Hk; try assumption.
  apply Forall_app. split; assumption.
Qed.

Lemma for_each_trace (P : fs_effect -> Prop) (body : string -> node -> run)
    (children : list (string * node)) :
  Forall (fun entry => Forall P (fst (body (fst entry) (snd entry)))) children ->
  Forall P (fst (for_each body children)).
Proof.
  induction 1 as [|[child sub] children Hentry _ IH]; [constructor|].
  cbn [for_each]. apply then_run_trace; assumption.
Qed.

(** X5: whatever the renames answer, every rename [skipRecursive] asks
    for takes an entry from inside [from] and puts it directly into
    [dest] under the name it had: the levels in between are dropped. *)
Theorem skipRecursive_renames_into_dest
    (rename_result : fs_path -> fs_path -> external unit)
    (tree : node) (from dest : fs_path) (skip : Z) :
  Forall (fun e =>
            match e with
            | Readdir _ => True
            | Rename oldPath newPath =>
                exists below child,
                  oldPath = path_join (segments from ++ below ++ [child])
                  /\ newPath = path_join (segments dest ++ [child])
            end)
         (fst (skipRecursive rename_result tree from dest skip)).
Proof.
  revert from skip.
  induction tree as [|children IH|what|] using node_induction;
    intros from skip; [repeat constructor| |repeat constructor..].
  - cbn [skipRecursive]. apply then_run_trace; [repeat constructor|].
    destruct (0 <? skip).
    + apply for_each_trace.
      apply Forall_forall. intros [child sub] Hin. cbn [fst snd].
      rewrite Forall_forall in IH. specialize (IH _ Hin). cbn [snd] in IH.
      specialize (IH (child_path from child) (skip - 1)).
      eapply Forall_impl; [exact IH|].
      intros [p|oldPath newPath]; [trivial|].
      intros (below & name & -> & ->).
      exists (child :: below), name. split; [|reflexivity].
      unfold child_path. cbn [segments]. rewrite <- app_assoc. reflexivity.
    + apply for_each_trace.
      apply Forall_forall. intros [child sub] _. cbn [fst snd rename].
      constructor; [|constructor].
      exists [], child. split; reflexivity.
Qed.

Lemma then_run_normal (r k : run) :
  snd (then_run r k) = Normal tt
  <-> snd r = Normal tt /\ snd k = Normal tt.
Proof.
  destruct r as [t [[]|e| |e2]], k as [t' c]; cbn [then_run snd];
    intuition discriminate.
Qed.

Lemma then_run_renames (r k : run) :
  snd r = Normal tt ->
  List.filter is_rename (fst (then_run r k))
  = (List.filter is_rename (fst r) ++ List.filter is_rename (fst k))%list.
Proof.
  destruct r as [t [[]|e| |e2]], k as [t' c]; cbn [then_run fst snd];
    try discriminate.
  intros _. apply List.filter_app.
Qed.

(** X6: when every rename succeeds, [skipRecursive] completes exactly
    when everything down to [skip] levels below [from] is a folder that
    [readdir] lists (a file met on the way, or any other path on which
    [readdir] rejects or does not answer, stops it), and it then renames
    the entries found [skip] levels down, each once, in the order of the
    listing; a [skip] of 0 or less moves the entries of [from]
    itself. *)
Theorem skipRecursive_moves_level
    (rename_result : fs_path -> fs_path -> external unit)
    (tree : node) (from dest : fs_path) (skip : Z) :
  (forall oldPath newPath, rename_result oldPath newPath = Ok tt) ->
  let result := skipRecursive rename_result tree from dest skip in
  (snd result = Normal tt <-> folders_down_to (Z.to_nat skip) tree = true)
  /\ (snd result = Normal tt ->
      List.filter is_rename (fst result)
      = renames_of dest (entries_at (Z.to_nat skip) tree from)).
Proof.
  intros Hok. cbn zeta. revert from skip.
  induction tree as [|children IH|what|] using node_induction;
    intros from skip;
    [cbn; split; [split; discriminate|discriminate]|
    |cbn; split; [split; discriminate|discriminate]..].
  - cbn [skipRecursive]. destruct (Z.ltb_spec 0 skip) as [Hpos|Hnonpos].
    + replace (Z.to_nat skip) with (S (Z.to_nat (skip - 1))) by lia.
      cbn [folders_down_to entries_at].
      assert (Hloop :
        (snd (for_each
                (fun child sub =>
                   skipRecursive rename_result sub (child_path from child)
                     dest (skip - 1)) children) = Normal tt
         <-> forallb (fun '(_, sub) =>
                        folders_down_to (Z.to_nat (skip - 1)) sub)
               children = true)
        /\ (snd (for_each
                   (fun child sub =>
                      skipRecursive rename_result sub (child_path from child)
                        dest (skip - 1)) children) = Normal tt ->
            List.filter is_rename
              (fst (for_each
                      (fun child sub =>
                         skipRecursive rename_result sub
                           (child_path from child) dest (skip - 1))
                      children))
            = renames_of dest
                (flat_map
                   (fun '(child, sub) =>
                      entries_at (Z.to_nat (skip - 1)) sub
                        (child_path from child)) children))).
      { induction IH as [|[child sub] children Hsub _ IHchildren].
        - cbn. split; [split; reflexivity|reflexivity].
        - cbn [for_each forallb flat_map snd] in *.
          destruct (Hsub (child_path from child) (skip - 1))
            as [Hiff Hrenames].
          destruct IHchildren as [Hiff' Hrenames'].
          split.
          + rewrite then_run_normal, andb_true_iff, Hiff, Hiff'. reflexivity.
          + intros Hdone. apply then_run_normal in Hdone as Hboth.
            destruct Hboth as [Hfirst Hrest].
            rewrite (then_run_renames _ _ Hfirst), (Hrenames Hfirst),
              (Hrenames' Hrest).
            unfold renames_of. rewrite map_app. reflexivity. }
      destruct Hloop as [Hiff Hrenames].
      split.
      * rewrite then_run_normal. cbn [snd]. rewrite <- Hiff. tauto.
      * intros Hdone. apply then_run_normal in Hdone as [_ Hdone].
        rewrite then_run_renames by reflexivity. cbn [fst List.filter is_rename app].
        exact (Hrenames Hdone).
    + replace (Z.to_nat skip) with O by lia.
      cbn [folders_down_to entries_at]. clear IH.
      assert (Hloop :
        snd (for_each
               (fun child _ =>
                  rename rename_result (child_path from child)
                    (child_path dest child)) children) = Normal tt
        /\ List.filter is_rename
             (fst (for_each
                     (fun child _ =>
                        rename rename_result (child_path from child)
                          (child_path dest child)) children))
           = renames_of dest (map (fun '(child, _) => (from, child)) children)).
      { induction children as [|[child sub] children [IHdone IHrenames]].
        - split; reflexivity.
        - cbn [for_each map renames_of].
          assert (Hone : snd (rename rename_result (child_path from child)
                                (child_path dest child)) = Normal tt).
          { unfold rename. rewrite Hok. reflexivity. }
          split.
          + apply then_run_normal. split; assumption.
          + rewrite (then_run_renames _ _ Hone), IHrenames. reflexivity. }
      destruct Hloop as [Hdone Hrenames].
      split.
      * rewrite then_run_normal. cbn [snd]. tauto.
      * intros _. rewrite then_run_renames by reflexivity.
        cbn [fst List.filter is_rename app]. exact Hrenames.
Qed.

Lemma skipRecursive_moves_level_witness :
  snd (skipRecursive always_ok sample_tree (path_join ["/tmp/x"])
         (path_join ["/dest"]) 1) = Normal tt
  /\ List.filter is_rename
       (fst (skipRecursive always_ok sample_tree (path_join ["/tmp/x"])
               (path_join ["/dest"]) 1))
     = [Rename (path_join ["/tmp/x"; "top"; "bin"])
          (path_join ["/dest"; "bin"]);
        Rename (path_join ["/tmp/x"; "top"; "README"])
          (path_join ["/dest"; "README"])].
Proof.
  destruct (skipRecursive_moves_level always_ok sample_tree
              (path_join ["/tmp/x"]) (path_join ["/dest"]) 1
              (fun _ _ => eq_refl)) as [Hiff Hrenames].
  assert (Hdone : snd (skipRecursive always_ok sample_tree
                         (path_join ["/tmp/x"]) (path_join ["/dest"]) 1)
                  = Normal tt) by (apply Hiff; reflexivity).
  split; [exact Hdone|]. rewrite (Hrenames Hdone). reflexivity.
Defined.

Lemma then_run_ends (P : list fs_effect -> completion unit -> Prop)
    (r k : run) :
  (forall t c t0, P t c -> P (t0 ++ t)%list c) ->
  P (fst r) (snd r) -> P (fst k) (snd k) ->
  P (fst (then_run r k)) (snd (then_run r k)).
Proof.
  intros Hext Hr Hk.
  destruct r as [t [[]|e'| |e2]], k as [t' c]; cbn [then_run fst snd] in *;
    [apply Hext, Hk|exact Hr..].
Qed.

Lemma stopped_at_longer
    (rename_result : fs_path -> fs_path -> external unit)
    (rejected : list (fs_path * string)) (hanging : bool)
    (t t0 : list fs_effect) (c : completion unit) :
  stopped_at rename_result rejected hanging t c ->
  stopped_at rename_result rejected hanging (t0 ++ t)%list c.
Proof.
  destruct c as [[]|e| |e2]; cbn [stopped_at]; [trivial| | |trivial].
  - intros [before [(p & what & -> & Hin & ->)
                   |(o & n & what & -> & Hf & ->)]];
      exists (t0 ++ before)%list; [left|right].
    + exists p, what. split; [apply List.app_assoc|]. split; auto.
    + exists o, n, what. split; [apply List.app_assoc|]. split; auto.
  - intros [before [(p & -> & Hh)|(o & n & -> & Hn)]];
      exists (t0 ++ before)%list; [left|right].
    + exists p. split; [apply List.app_assoc|assumption].
    + exists o, n. split; [apply List.app_assoc|assumption].
Qed.

Lemma stopped_at_more
    (rename_result : fs_path -> fs_path -> external unit)
    (rejected rejected' : list (fs_path * string)) (hanging hanging' : bool)
    (t : list fs_effect) (c : completion unit) :
  (forall x, In x rejected -> In x rejected') ->
  (hanging = true -> hanging' = true) ->
  stopped_at rename_result rejected hanging t c ->
  stopped_at rename_result rejected' hanging' t c.
Proof.
  intros Hin Hh.
  destruct c as [[]|e| |e2]; cbn [stopped_at]; [trivial| | |trivial].
  - intros [before [(p & what & -> & Hp & ->)|Hrename]];
      exists before; [left|right; exact Hrename].
    exists p, what. auto.
  - intros [before [(p & -> & Hp)|Hrename]];
      exists before; [left|right; exact Hrename].
    exists p. auto.
Qed.

Lemma skipRecursive_stopped_at
    (rename_result : fs_path -> fs_path -> external unit)
    (tree : node) (from dest : fs_path) (skip : Z) :
  stopped_at rename_result (rejections tree from) (unanswered tree)
    (fst (skipRecursive rename_result tree from dest skip))
    (snd (skipRecursive rename_result tree from dest skip)).
Proof.
  revert from skip.
  induction tree as [|children IH|what|] using node_induction;
    intros from skip.
  - exists []. left. exists from, "ENOTDIR". cbn. auto.
  - cbn [skipRecursive rejections unanswered].
    apply then_run_ends;
      [intros; apply stopped_at_longer; assumption|exact I|].
    destruct (0 <? skip).
    + induction IH as [|[child sub] children Hsub _ IHchildren];
        [exact I|].
      cbn [for_each flat_map existsb snd] in *.
      apply then_run_ends;
        [intros; apply stopped_at_longer; assumption| |].
      * eapply stopped_at_more; [| |apply Hsub].
        -- intros x Hx. apply in_or_app. left. exact Hx.
        -- intros ->. reflexivity.
      * eapply stopped_at_more; [| |exact IHchildren].
        -- intros x Hx. apply in_or_app. right. exact Hx.
        -- intros ->. apply orb_true_r.
    + clear IH. induction children as [|[child sub] children IHchildren];
        [exact I|].
      cbn [for_each flat_map existsb] in *.
      apply then_run_ends;
        [intros; apply stopped_at_longer; assumption| |].
      * unfold rename. cbn [fst snd].
        destruct (rename_result _ _) as [[]|what|] eqn:Hres;
          cbn [stopped_at]; [trivial|..]; exists []; right; eauto 8.
      * eapply stopped_at_more; [| |exact IHchildren].
        -- intros x Hx. apply in_or_app. right. exact Hx.
        -- intros ->. apply orb_true_r.
  - exists []. left. exists from, what. cbn. auto.
  - exists []. left. exists from. cbn. auto.
Qed.

(** X7: [skipRecursive] stops at the first call that does not complete
    and undoes nothing.  When it throws, the failing call is the last one
    made: a [readdir] that rejected, on a file (ENOTDIR) or on any other
    path it cannot list, or a rename that was rejected; the error thrown
    is the one that call rejected with, whatever it is, and the renames
    made before it stay made.  When it never completes, the last call
    made is a [readdir] or a rename that never settles. *)
Theorem skipRecursive_stops_at_failure
    (rename_result : fs_path -> fs_path -> external unit)
    (tree : node) (from dest : fs_path) (skip : Z) :
  let result := skipRecursive rename_result tree from dest skip in
  (forall e, snd result = Throw e ->
     exists before,
       (exists p what,
          fst result = (before ++ [Readdir p])%list
          /\ In (p, what) (rejections tree from)
          /\ e = ExternalError what)
       \/ (exists oldPath newPath what,
             fst result = (before ++ [Rename oldPath newPath])%list
             /\ rename_result oldPath newPath = Failed what
             /\ e = ExternalError what))
  /\ (snd result = Pending ->
      exists before,
        (exists p,
           fst result = (before ++ [Readdir p])%list
           /\ unanswered tree = true)
        \/ (exists oldPath newPath,
              fst result = (before ++ [Rename oldPath newPath])%list
              /\ rename_result oldPath newPath = Never)).
Proof.
  cbn zeta.
  pose proof (skipRecursive_stopped_at rename_result tree from dest skip)
    as Hstop.
  split.
  - intros e He. rewrite He in Hstop. exact Hstop.
  - intros Hp. rewrite Hp in Hstop. exact Hstop.
Qed.

Lemma skipRecursive_stops_at_failure_witness :
  (exists before,
     (exists p what,
        fst (skipRecursive always_ok locked_tree (path_join ["/tmp/x"])
               (path_join ["/dest"]) 2)
        = (before ++ [Readdir p])%list
        /\ In (p, what) (rejections locked_tree (path_join ["/tmp/x"]))
        /\ ExternalError "EACCES" = ExternalError what)
     \/ (exists oldPath newPath what,
           fst (skipRecursive always_ok locked_tree (path_join ["/tmp/x"])
                  (path_join ["/dest"]) 2)
           = (before ++ [Rename oldPath newPath])%list
           /\ always_ok oldPath newPath = Failed what
           /\ ExternalError "EACCES" = ExternalError what))
  /\ skipRecursive always_ok locked_tree (path_join ["/tmp/x"])
       (path_join ["/dest"]) 2
     = ([Readdir (path_join ["/tmp/x"]);
         Readdir (path_join ["/tmp/x"; "top"]);
         Readdir (path_join ["/tmp/x"; "top"; "bin"])],
        Throw (ExternalError "EACCES")).
Proof.
  split; [|reflexivity].
  apply (skipRecursive_stops_at_failure always_ok locked_tree
           (path_join ["/tmp/x"]) (path_join ["/dest"]) 2).
  reflexivity.
Defined.

End SkipRecursiveFacts.

(** ** parseInt and the skip depth *)

Section SkipDepthFacts.

Import Xpack.

Lemma digits_decimal (d : Decimal.uint) (acc : Z) :
  digits 10 (Some acc) (NilEmpty.string_of_uint d)
  = Some (acc * 10 ^ Z.of_N (DecimalPos.Unsigned.usize d)
          + Z.of_N (DecimalPos.Unsigned.of_lu (Decimal.rev d))).
Proof.
  revert acc.
  induction d; intros acc;
    [cbn; f_equal; lia|..];
    cbn [NilEmpty.string_of_uint digits];
    (change (digit_in 10 _) with (Some 0) ||
     change (digit_in 10 _) with (Some 1) ||
     change (digit_in 10 _) with (Some 2) ||
     change (digit_in 10 _) with (Some 3) ||
     change (digit_in 10 _) with (Some 4) ||
     change (digit_in 10 _) with (Some 5) ||
     change (digit_in 10 _) with (Some 6) ||
     change (digit_in 10 _) with (Some 7) ||
     change (digit_in 10 _) with (Some 8) ||
     change (digit_in 10 _) with (Some 9));
    cbn [default from_option id];
    rewrite IHd; f_equal;
    match goal with
    | |- context [DecimalPos.Unsigned.of_lu (Decimal.rev (?D d))] =>
        change (Decimal.rev (D d)) with (Decimal.revapp d (D Decimal.Nil));
        rewrite (DecimalPos.Unsigned.of_lu_revapp d (D Decimal.Nil))
    end;
    cbn [DecimalPos.Unsigned.usize DecimalPos.Unsigned.of_lu];
    rewrite N2Z.inj_succ, Z.pow_succ_r by lia;
    rewrite N2Z.inj_add, N2Z.inj_mul, N2Z.inj_pow;
    cbn [Z.of_N]; lia.
Qed.

Lemma digits_start (d : Decimal.uint) :
  d <> Decimal.Nil ->
  digits 10 None (NilEmpty.string_of_uint d) = Some (Z.of_N (Pos.of_uint d)).
Proof.
  intros Hd.
  assert (H0 : digits 10 None (NilEmpty.string_of_uint d)
               = digits 10 (Some 0) (NilEmpty.string_of_uint d)).
  { destruct d; [contradiction|reflexivity..]. }
  rewrite H0, digits_decimal, DecimalPos.Unsigned.of_uint_alt. f_equal.
Qed.

Lemma trim_start_no_space (a : ascii) (s : string) :
  space_width (String a s) = O -> trim_start (String a s) = String a s.
Proof.
  intros Hwidth. unfold trim_start. cbn [String.length trim_start_fuel].
  rewrite Hwidth. reflexivity.
Qed.

Lemma parseInt_decimal (d : Decimal.uint) :
  d <> Decimal.Nil ->
  parseInt (JStr (NilEmpty.string_of_uint d)) = JNum (Z.of_N (Pos.of_uint d))
  /\ parseInt (JStr (String "-" (NilEmpty.string_of_uint d)))
     = JNum (- Z.of_N (Pos.of_uint d)).
Proof.
  intros Hd. pose proof (digits_start d Hd) as Hdigits.
  unfold parseInt. cbn [to_string].
  destruct d as [|d'|d'|d'|d'|d'|d'|d'|d'|d'|d']; [contradiction|..];
    cbn [NilEmpty.string_of_uint] in *.
  2-10: (split; rewrite trim_start_no_space by reflexivity; cbv beta iota zeta;
         rewrite Hdigits; f_equal; lia).
  destruct d' as [|d'|d'|d'|d'|d'|d'|d'|d'|d'|d'];
    cbn [NilEmpty.string_of_uint] in *;
    (split; rewrite trim_start_no_space by reflexivity; cbv beta iota zeta;
     rewrite Hdigits; f_equal; lia).
Qed.

Lemma to_string_decimal (p : positive) :
  to_string (JNum (Z.pos p)) = NilEmpty.string_of_uint (Pos.to_uint p)
  /\ to_string (JNum (Z.neg p))
     = String "-" (NilEmpty.string_of_uint (Pos.to_uint p)).
Proof.
  pose proof (DecimalPos.Unsigned.to_uint_nonnil p) as Hnil.
  cbn [to_string Z.to_int NilZero.string_of_int].
  unfold NilZero.string_of_uint.
  destruct (Pos.to_uint p); [contradiction|split; reflexivity..].
Qed.

(** [parseInt] reads back the integer that [ToString] printed. *)
Lemma parseInt_to_string (z : Z) : parseInt (JStr (to_string (JNum z))) = JNum z.
Proof.
  destruct z as [|p|p]; [reflexivity|..];
    destruct (to_string_decimal p) as [Hpos Hneg];
    destruct (parseInt_decimal (Pos.to_uint p)
                (DecimalPos.Unsigned.to_uint_nonnil p)) as [Hparse Hparse'].
  - rewrite Hpos, Hparse, DecimalPos.Unsigned.of_to. reflexivity.
  - rewrite Hneg, Hparse', DecimalPos.Unsigned.of_to. reflexivity.
Qed.

(** X8: a [skip] that is an integer of magnitude below 2^53 (where a
    number of the language is exact and is printed in plain decimal),
    given as a number or as its decimal text, is the skip depth,
    unchanged; a [skip] that is missing (or falsy) gives the depth 0. *)
Theorem skipLevels_of_integer (b : binaries) :
  (forall z, - 2 ^ 53 < z < 2 ^ 53 ->
     skip b = JNum z \/ skip b = JStr (to_string (JNum z)) ->
     skipLevels b = JNum z)
  /\ (truthy (skip b) = false -> skipLevels b = JNum 0).
Proof.
  split.
  - intros z _ [Hskip|Hskip]; unfold skipLevels; rewrite Hskip.
    + destruct (truthy (JNum z)) eqn:Htruthy.
      * apply (parseInt_to_string z).
      * cbn in Htruthy. apply negb_false_iff, Z.eqb_eq in Htruthy.
        congruence.
    + rewrite parseInt_to_string. destruct (truthy _) eqn:Htruthy;
        [reflexivity|].
      destruct z as [|p|p]; [discriminate|..];
        destruct (to_string_decimal p) as [Hpos Hneg].
      * rewrite Hpos in Htruthy.
        pose proof (DecimalPos.Unsigned.to_uint_nonnil p).
        destruct (Pos.to_uint p); [contradiction|discriminate..].
      * rewrite Hneg in Htruthy. discriminate.
  - intros Hfalsy. unfold skipLevels. rewrite Hfalsy. reflexivity.
Qed.

Lemma skipLevels_of_integer_witness :
  skipLevels (sample_binaries (JStr "https://fallback.com/") (JStr "12")
                sample_entry) = JNum 12
  /\ skipLevels (sample_binaries (JStr "https://fallback.com/") JUndefined
                   sample_entry) = JNum 0.
Proof.
  split.
  - destruct (skipLevels_of_integer
                (sample_binaries (JStr "https://fallback.com/") (JStr "12")
                   sample_entry)) as [Hnumber _].
    apply (Hnumber 12); [lia|right; reflexivity].
  - destruct (skipLevels_of_integer
                (sample_binaries (JStr "https://fallback.com/") JUndefined
                   sample_entry)) as [_ Hmissing].
    apply Hmissing. reflexivity.
Defined.

End SkipDepthFacts.

(** ** Xpack: further properties of the pipeline *)

Section PipelineMoreFacts.

Import Xpack.
Local Open Scope xpack_scope.

(** More of what a run of [ensureCached] can look like. *)
Lemma ensureCached_outcomes (w : world) (cachePath key url : string)
    (digest : jsval) :
  let run := ensureCached w cachePath key url digest in
  (forall cachePath' key', In (CacheGetInfo cachePath' key') (fst run) ->
     cachePath' = cachePath /\ key' = key)
  /\ (forall entry, get_info_first w = Ok (Some entry) ->
        run = ([CacheGetInfo cachePath key], Normal entry))
  /\ (forall e, In e (fst run) -> is_download e = true ->
        get_info_first w = Ok None)
  /\ (In (Log Info ("If you have an aggressive antivirus, try to"
                      +:+ " reconfigure it, or temporarily disable it."))
         (fst run) ->
      process_platform w = "win32")
  /\ (forall what, snd run = Throw (ExternalError what) ->
        get_info_first w = Failed what \/ get_info_second w = Failed what)
  /\ (snd run = Pending ->
        get_info_first w = Never
        \/ (get_info_first w = Ok None /\ download_events w = [])
        \/ get_info_second w = Never)
  /\ (forall i o s, ~ In (Decompress i o s) (fst run)).
Proof.
  cbn zeta. unfold ensureCached, cacheArchive.
  destruct (get_info_first w) as [[entry|]|what|];
    cbn [await bind emit ret throw try_catch app fst snd].
  1,3,4: ((split; [|split; [|split; [|split; [|split; [|split]]]]]);
    [ intros ? ? [[= <- <-]|[]]; auto
    | intros ? [=]; subst; reflexivity
    | intros e [<-|[]]; discriminate
    | intros [|[]]; discriminate
    | intros ? [=]; subst; auto
    | intros [=]; auto
    | intros ? ? ? [|[]]; discriminate ]).
  destruct (download_events w) as [|ev events];
    [|destruct ev; (destruct events as [|ev' events'])];
    cbn [settlement handler resolve reject handler_log emit_all
         await bind emit ret throw try_catch app fst snd];
    destruct (String.eqb_spec (process_platform w) "win32") as [Hwin|Hwin];
    destruct (get_info_second w) as [[entry|]|what2|];
    cbn [await bind emit ret throw try_catch app fst snd];
    ((split; [|split; [|split; [|split; [|split; [|split]]]]]);
    [ intros ? ? Hin; cbn [In] in Hin;
      repeat (destruct Hin as [Hin|Hin];
              [first [discriminate Hin|injection Hin as <- <-; auto]|]);
      destruct Hin
    | intros ? [=]
    | reflexivity
    | intros Hin; cbn [In] in Hin;
      repeat (destruct Hin as [Hin|Hin];
              [first [discriminate Hin|exact Hwin]|]);
      destruct Hin
    | intros ? [=]; subst; auto
    | intros [=]; auto
    | intros ? ? ? Hin; cbn [In] in Hin;
      repeat (destruct Hin as [Hin|Hin]; [discriminate Hin|]);
      destruct Hin ]).
Qed.

Lemma files_extracted_not_hint (n : nat) :
  NilZero.string_of_uint (Nat.to_uint n) +:+ " files extracted."
  <> "If you have an aggressive antivirus, try to"
       +:+ " reconfigure it, or temporarily disable it.".
Proof.
  unfold NilZero.string_of_uint.
  destruct (Nat.to_uint n); discriminate.
Qed.

(** More of what a run of [extract] can look like. *)
Lemma extract_outcomes (w : world) (b : binaries) (platform : platform_entry)
    (contentFolderPath : fs_path) (cacheInfo : cache_entry) :
  let run := extract w b platform contentFolderPath cacheInfo in
  (forall i o s, In (Decompress i o s) (fst run) ->
     i = path cacheInfo /\ o = contentFolderPath /\ s = skipLevels b
     /\ rimraf_result w = Ok tt /\ In (Rimraf o) (fst run))
  /\ (forall what, snd run = Throw (ExternalError what) ->
        rimraf_result w = Failed what \/ decompress_result w = Failed what)
  /\ (snd run = Pending ->
        rimraf_result w = Never \/ decompress_result w = Never)
  /\ (forall cachePath key, ~ In (CacheGetInfo cachePath key) (fst run))
  /\ ~ In (Log Info ("If you have an aggressive antivirus, try to"
                       +:+ " reconfigure it, or temporarily disable it."))
          (fst run)
  /\ In (Rimraf contentFolderPath) (fst run).
Proof.
  cbn zeta. unfold extract.
  destruct (rimraf_result w) as [[]|what|];
    cbn [await bind emit ret throw app fst snd];
    [destruct (decompress_result w) as [n|what|];
     cbn [await bind emit ret throw app fst snd]|..];
    ((split; [|split; [|split; [|split; [|split]]]]);
    [ intros ? ? ? Hin; cbn [In] in Hin;
      repeat (destruct Hin as [Hin|Hin];
              [first [discriminate Hin
                     |injection Hin as <- <- <-;
                      repeat split; cbn [In]; auto 10]|]);
      destruct Hin
    | intros ? [=]; subst; auto
    | intros [=]; auto
    | intros ? ? Hin; cbn [In] in Hin;
      repeat (destruct Hin as [Hin|Hin]; [discriminate Hin|]);
      destruct Hin
    | intros Hin; cbn [In] in Hin;
      repeat (destruct Hin as [Hin|Hin];
              [first [discriminate Hin
                     |injection Hin as Hin;
                      exact (files_extracted_not_hint _ Hin)]|]);
      destruct Hin
    | cbn [In]; auto 10 ]).
Qed.

(** The ways a run of [downloadBinaries] can go once a platform entry is
    resolved, with the run written out. *)
Lemma resolved_run_shapes (w : world) (packagePath cachePath : string)
    (b : binaries) (platform : platform_entry) :
  resolvePlatform w = Some (b, platform) ->
  let run := downloadBinaries w packagePath cachePath in
  let manifest := ReadFile (path_join [packagePath; "package.json"]) in
  (truthy (baseUrl b) = false
   /\ run = ([manifest],
             Throw (CliError "Missing xpack.binaries.baseUrl" ERROR_INPUT)))
  \/ (truthy (baseUrl b) = true
      /\ ((forall folder,
             js_or (destination b) (JStr ".content") <> JStr folder)
          \/ (truthy (entry_skip platform) = false
              /\ truthy (fileName platform) = true))
      /\ run = ([manifest], Throw TypeError))
  \/ (exists folder,
        truthy (baseUrl b) = true
        /\ js_or (destination b) (JStr ".content") = JStr folder
        /\ truthy (entry_skip platform) = true
        /\ run = ([manifest;
                   Log Warn ("No binaries are available for this platform, "
                               +:+ "command ignored.")], Normal tt))
  \/ (exists folder,
        truthy (baseUrl b) = true
        /\ js_or (destination b) (JStr ".content") = JStr folder
        /\ truthy (entry_skip platform) = false
        /\ truthy (fileName platform) = false
        /\ run = ([manifest],
                  Throw (CliError ("Missing xpack.binaries.platform["
                           +:+ platformKey w +:+ "].fileName") ERROR_INPUT)))
  \/ (exists folder base digest,
        truthy (baseUrl b) = true
        /\ js_or (destination b) (JStr ".content") = JStr folder
        /\ truthy (entry_skip platform) = false
        /\ truthy (fileName platform) = true
        /\ js_or (entry_baseUrl platform) (baseUrl b) = JStr base
        /\ integrityDigest (fst (hashChoice platform))
             (snd (hashChoice platform)) = ret digest
        /\ let key := "xpm:binaries:" +:+ to_string (fileName platform) in
           let cached :=
             ensureCached w cachePath key
               (with_slash base +:+ to_string (fileName platform)) digest in
           let logs :=
             [manifest;
              Log Trace ("expected integrity digest " +:+ to_string digest
                           +:+ " for "
                           +:+ to_string (snd (hashChoice platform)));
              Log Trace ("getting cacache info(" +:+ cachePath +:+ ", "
                           +:+ key +:+ ")...")] in
           match snd cached with
           | Normal entry =>
               let extracted :=
                 extract w b platform (path_join [packagePath; folder])
                   entry in
               run = ((logs ++ fst cached ++ fst extracted)%list,
                      snd extracted)
           | Throw e => run = ((logs ++ fst cached)%list, Throw e)
           | Pending => run = ((logs ++ fst cached)%list, Pending)
           | Uncaught e => run = ((logs ++ fst cached)%list, Uncaught e)
           end).
Proof.
  intros Hres. cbn zeta.
  rewrite (downloadBinaries_resolved _ _ _ _ _ Hres), bind_emit_run.
  unfold acquire.
  destruct (truthy (baseUrl b)) eqn:Hbase; cbn [negb]; [|left; auto].
  right.
  destruct (contentFolderPath_cases packagePath b)
    as [(folder & Hfolder & ->)|[Hfolder ->]]; [|left; auto].
  cbn [bind ret throw app fst snd].
  destruct (truthy (entry_skip platform)) eqn:Hskip.
  { right; left. exists folder. auto. }
  destruct (truthy (fileName platform)) eqn:Hname; cbn [negb].
  2:{ do 2 right; left. exists folder. auto 6. }
  destruct (fileUrl_cases b platform) as [(base & Hb & ->)| ->];
    [|left; auto].
  cbn [bind ret throw app fst snd].
  destruct (hashChoice platform) as [hashAlgorithm hexSum] eqn:Hhash.
  destruct (integrityDigest_cases hashAlgorithm hexSum) as [(digest & Hd)|Hd];
    rewrite Hd; [|left; auto].
  do 3 right. exists folder, base, digest. cbn [fst snd].
  repeat (split; [first [reflexivity|assumption]|]).
  cbn [bind ret throw emit app fst snd].
  destruct (ensureCached w cachePath _ _ digest) as [t [entry|e| |e2]];
    cbn [bind ret throw emit app fst snd]; [|reflexivity..].
  destruct (extract w b platform _ entry) as [t' c]. reflexivity.
Qed.

(** [ensureCached] when the cache does not know the archive. *)
Lemma ensureCached_download (w : world) (cachePath key url : string)
    (digest : jsval) :
  get_info_first w = Ok None ->
  let run := ensureCached w cachePath key url digest in
  existsb is_download (fst run) = true
  /\ ((exists ev rest,
         download_events w = ev :: rest
         /\ (ev = PipeClose \/ exists value, ev = PutIntegrity value)) ->
      get_info_second w = Ok None ->
      snd run = Throw (CliError "Download failed." ERROR_INPUT))
  /\ ((exists ev rest what,
         download_events w = ev :: rest
         /\ (ev = PutError what \/ ev = PipeError what)) ->
      snd run = Throw (CliError "Download failed." ERROR_INPUT)
      /\ (process_platform w = "win32" ->
          In (Log Info ("If you have an aggressive antivirus, try to"
                          +:+ " reconfigure it, or temporarily disable it."))
             (fst run))).
Proof.
  intros Hfirst. cbn zeta. unfold ensureCached, cacheArchive. rewrite Hfirst.
  cbn [await bind emit ret throw try_catch app fst snd].
  destruct (download_events w) as [|ev events];
    [|destruct ev; (destruct events as [|ev' events'])];
    cbn [settlement handler resolve reject handler_log emit_all
         await bind emit ret throw try_catch app fst snd];
    destruct (String.eqb_spec (process_platform w) "win32") as [Hwin|Hwin];
    destruct (get_info_second w) as [[entry|]|what2|];
    cbn [await bind emit ret throw try_catch app fst snd];
    ((split; [|split]);
    [ reflexivity
    | intros (ev0 & rest & [=] & Hev) [=]; subst;
      first [reflexivity
            |destruct Hev as [Hev|[? Hev]]; discriminate Hev]
    | intros (ev0 & rest & what0 & [=] & Hev); subst;
      first [destruct Hev as [Hev|Hev]; discriminate Hev
            |split; [reflexivity|intros Hw; cbn [In]; auto 10; contradiction]]
    ]).
Qed.

(** [ensureCached] ends with an uncaught exception exactly when it
    downloads and the first event is an error of the request. *)
Lemma ensureCached_uncaught (w : world) (cachePath key url : string)
    (digest : jsval) :
  let run := ensureCached w cachePath key url digest in
  (forall e, snd run = Uncaught e ->
     exists what rest,
       e = ExternalError what
       /\ get_info_first w = Ok None
       /\ download_events w = TransportError what :: rest)
  /\ (forall what rest,
        get_info_first w = Ok None ->
        download_events w = TransportError what :: rest ->
        snd run = Uncaught (ExternalError what)).
Proof.
  cbn zeta. unfold ensureCached, cacheArchive.
  destruct (get_info_first w) as [[entry|]|what|];
    cbn [await bind emit ret throw try_catch app fst snd].
  1,3,4: (split; [intros ? [=]|intros ? ? [=]]).
  destruct (download_events w) as [|ev events];
    [|destruct ev; (destruct events as [|ev' events'])];
    cbn [settlement handler resolve reject handler_log emit_all
         await bind emit ret throw try_catch app fst snd];
    destruct (String.eqb (process_platform w) "win32");
    destruct (get_info_second w) as [[entry|]|what2|];
    cbn [await bind emit ret throw try_catch app fst snd];
    (split;
     [ intros ? [=]; subst; eauto
     | intros ? ? _ [=]; subst; reflexivity ]).
Qed.

(** [extract] has no uncaught exception of its own. *)
Lemma extract_not_uncaught (w : world) (b : binaries)
    (platform : platform_entry) (contentFolderPath : fs_path)
    (cacheInfo : cache_entry) (e : js_error) :
  snd (extract w b platform contentFolderPath cacheInfo) <> Uncaught e.
Proof.
  unfold extract.
  destruct (rimraf_result w) as [[]|what|];
    cbn [await bind emit ret throw app fst snd];
    [destruct (decompress_result w) as [n|what|];
     cbn [await bind emit ret throw app fst snd]|..];
    discriminate.
Qed.

(** X9: a package that is not a binary xPack for this platform is left
    alone: when the manifest cannot be read, has no name or version, no
    [xpack], [xpack.binaries] or [xpack.binaries.platforms], or no entry
    for the platform key, [downloadBinaries] reads the manifest, logs one
    line at the debug level and returns. *)
Theorem not_applicable_is_silent (w : world) (packagePath cachePath : string) :
  resolvePlatform w = None ->
  exists message,
    In message
       ["doesn't look like an xPack, package.json has no xpack";
        "doesn't look like a binary xPack, package.json has no xpack.binaries";
        "doesn't look like a binary xPack, "
          +:+ "package.json has no xpack.binaries.platforms";
        "platform " +:+ platformKey w +:+ " not defined"]
    /\ downloadBinaries w packagePath cachePath
       = ([ReadFile (path_join [packagePath; "package.json"]);
           Log Debug message], Normal tt).
Proof.
  unfold resolvePlatform, downloadBinaries, isFolderPackage.
  destruct (package_json_file w) as [json|];
    cbn [mbind option_bind bind emit ret app];
    [|eexists; split; [|reflexivity]; cbn [In]; auto].
  destruct (truthy (name json) && truthy (version json));
    cbn [mbind option_bind bind emit ret app];
    [|eexists; split; [|reflexivity]; cbn [In]; auto].
  destruct (xpack json) as [x|];
    cbn [mbind option_bind bind emit ret app];
    [|eexists; split; [|reflexivity]; cbn [In]; auto].
  destruct (xpack_binaries x) as [b'|];
    cbn [mbind option_bind bind emit ret app];
    [|eexists; split; [|reflexivity]; cbn [In]; auto].
  destruct (platforms b') as [pfs|];
    cbn [mbind option_bind bind emit ret app];
    [|eexists; split; [|reflexivity]; cbn [In]; auto].
  destruct (pfs !! platformKey w) as [platform'|];
    cbn [mbind option_bind bind emit ret app];
    [discriminate|eexists; split; [|reflexivity]; cbn [In]; auto 6].
Qed.

Lemma not_applicable_is_silent_witness :
  exists message,
    In message
       ["doesn't look like an xPack, package.json has no xpack";
        "doesn't look like a binary xPack, package.json has no xpack.binaries";
        "doesn't look like a binary xPack, "
          +:+ "package.json has no xpack.binaries.platforms";
        "platform " +:+ platformKey unsupported_world +:+ " not defined"]
    /\ downloadBinaries unsupported_world "/pkg" "/cache"
       = ([ReadFile (path_join ["/pkg"; "package.json"]);
           Log Debug message], Normal tt).
Proof.
  apply (not_applicable_is_silent unsupported_world "/pkg" "/cache").
  reflexivity.
Defined.

Ltac run_shapes w packagePath cachePath b platform Hres :=
  let Hrun := fresh "Hrun" in
  destruct (resolved_run_shapes w packagePath cachePath b platform Hres)
    as [[? Hrun]|[(? & ? & Hrun)|[(? & ? & ? & ? & Hrun)
       |[(? & ? & ? & ? & ? & Hrun)
        |(folder & base & digest & ? & Hfolder & ? & ? & Hbase & Hdigest
            & Hrun)]]]];
  cbn zeta in Hrun.

(** X10: [downloadBinaries] ends with the missing-fileName error, which
    names the platform key, exactly when it resolves a platform entry
    that has no [fileName], is not skipped, and the checks before it pass
    ([xpack.binaries.baseUrl] is there, the destination is missing or a
    string); nothing but the manifest has been read by then. *)
Theorem missing_fileName_iff (w : world) (packagePath cachePath : string) :
  downloadBinaries w packagePath cachePath
    = ([ReadFile (path_join [packagePath; "package.json"])],
       Throw (CliError ("Missing xpack.binaries.platform[" +:+ platformKey w
                          +:+ "].fileName") ERROR_INPUT))
  <-> exists b platform folder,
        resolvePlatform w = Some (b, platform)
        /\ truthy (baseUrl b) = true
        /\ js_or (destination b) (JStr ".content") = JStr folder
        /\ truthy (entry_skip platform) = false
        /\ truthy (fileName platform) = false.
Proof.
  split.
  - intros Hthrow.
    destruct (resolvePlatform w) as [[b platform]|] eqn:Hres.
    2:{ destruct (downloadBinaries_unresolved w packagePath cachePath Hres)
          as [message Hrun]. rewrite Hrun in Hthrow. discriminate. }
    exists b, platform.
    run_shapes w packagePath cachePath b platform Hres;
      rewrite ?Hrun in Hthrow; try discriminate.
    + eauto 8.
    + exfalso.
      pose proof (ensureCached_spec w cachePath
                    ("xpm:binaries:" +:+ to_string (fileName platform))
                    (with_slash base +:+ to_string (fileName platform))
                    digest) as (_ & _ & Hcache & _).
      cbn zeta in Hcache.
      destruct (ensureCached w cachePath _ _ digest) as [t [entry|e| |e2]];
        cbn [fst snd] in *; rewrite Hrun in Hthrow; discriminate.
  - intros (b & platform & folder & Hres & Hbase & Hfolder & Hskip & Hname).
    rewrite (downloadBinaries_resolved _ _ _ _ _ Hres), bind_emit_run.
    unfold acquire, contentFolderPath.
    rewrite Hbase, Hfolder, Hskip, Hname. reflexivity.
Qed.

(** X11: a download is made only when the cache does not know the
    archive; when it knows it, what is extracted is the cached content,
    and there is no network call. *)
Theorem cache_hit_skips_download (w : world) (packagePath cachePath : string) :
  (forall e, In e (fst (downloadBinaries w packagePath cachePath)) ->
     is_download e = true -> get_info_first w = Ok None)
  /\ (forall entry input output strip,
        get_info_first w = Ok (Some entry) ->
        In (Decompress input output strip)
           (fst (downloadBinaries w packagePath cachePath)) ->
        input = path entry).
Proof.
  destruct (resolvePlatform w) as [[b platform]|] eqn:Hres.
  2:{ destruct (downloadBinaries_unresolved w packagePath cachePath Hres)
        as [message ->].
      split; [intros e [<-|[<-|[]]]; discriminate
             |intros ? ? ? ? _ [|[|[]]]; discriminate]. }
  run_shapes w packagePath cachePath b platform Hres.
  1-4: rewrite Hrun; cbn [fst In];
    (split; [intros e He Hd; repeat (destruct He as [<-|He];
                                      [discriminate Hd|]); destruct He
            |intros ? ? ? ? _ He; repeat (destruct He as [He|He];
                                          [discriminate He|]); destruct He]).
  pose proof (ensureCached_outcomes w cachePath
                ("xpm:binaries:" +:+ to_string (fileName platform))
                (with_slash base +:+ to_string (fileName platform)) digest)
    as (_ & Hhit & Hdown & _ & _ & _ & Hnodec).
  cbn zeta in *.
  destruct (ensureCached w cachePath _ _ digest) as [t c] eqn:Hcached.
  cbn [fst snd] in *.
  split.
  - intros e He Hd.
    destruct c as [entry|err| |err2]; rewrite Hrun in He; cbn [fst app In] in He;
      repeat (destruct He as [<-|He]; [discriminate Hd|]).
    + apply in_app_or in He as [He|He]; [eauto|].
      pose proof (extract_spec w b platform
                    (path_join [packagePath; folder]) entry) as (Hnodl & _).
      cbn zeta in Hnodl.
      assert (existsb is_download
                (fst (extract w b platform
                        (path_join [packagePath; folder]) entry)) = true)
        by (apply existsb_exists; exists e; split; assumption).
      congruence.
    + eauto.
    + eauto.
    + eauto.
  - intros entry input output strip Hfirst He.
    specialize (Hhit entry Hfirst). injection Hhit as -> ->.
    rewrite Hrun in He. cbn [fst app In] in He.
    repeat (destruct He as [He|He]; [discriminate He|]).
    pose proof (extract_outcomes w b platform
                  (path_join [packagePath; folder]) entry) as (Hdec & _).
    cbn zeta in Hdec. apply (Hdec _ _ _ He).
Qed.

Lemma cache_hit_skips_download_witness :
  "/cache/content/ab/cd" = path sample_cached.
Proof.
  destruct (cache_hit_skips_download
              (sample_world
                 (sample_binaries (JStr "https://fallback.com/") (JNum 1)
                    sample_entry)
                 (Some sample_cached) [] None)
              "/pkg" "/cache") as [_ Hhit].
  apply (Hhit sample_cached "/cache/content/ab/cd"
           (path_join ["/pkg"; ".content"]) (JNum 1) eq_refl).
  vm_compute. repeat (first [left; reflexivity | right]).
Defined.

(** X12: the integrity the cache store is asked to check is that of
    [sha256] when the entry declares one, that of [sha512] when it
    declares that one only, and none at all when it declares neither:
    the download is then not checked. *)
Theorem download_integrity_option (w : world) (packagePath cachePath : string)
    (b : binaries) (platform : platform_entry)
    (url cachePath' key : string) (opts : put_opts) :
  resolvePlatform w = Some (b, platform) ->
  In (RequestPipePutStream url cachePath' key opts)
     (fst (downloadBinaries w packagePath cachePath)) ->
  (truthy (sha256 platform) = true ->
   exists hex, sha256 platform = JStr hex
     /\ opts_integrity opts = JStr ("sha256-" +:+ base64 (hex_decode hex)))
  /\ (truthy (sha256 platform) = false -> truthy (sha512 platform) = true ->
      exists hex, sha512 platform = JStr hex
        /\ opts_integrity opts = JStr ("sha512-" +:+ base64 (hex_decode hex)))
  /\ (truthy (sha256 platform) = false -> truthy (sha512 platform) = false ->
      opts_integrity opts = JUndefined).
Proof.
  intros Hres He.
  destruct (download_effect _ _ _ _ _ _ Hres He eq_refl)
    as (base & digest & _ & Hdigest & [= _ _ _ ->]).
  cbn [opts_integrity]. unfold hashChoice, integrityDigest in Hdigest.
  split; [|split].
  - intros H256. rewrite H256 in Hdigest. cbn [fst snd] in Hdigest.
    rewrite H256 in Hdigest.
    destruct (sha256 platform) as [| |?| |?|hex]; try discriminate.
    injection Hdigest as <-. exists hex. split; reflexivity.
  - intros H256 H512. rewrite H256, H512 in Hdigest. cbn [fst snd] in Hdigest.
    rewrite H512 in Hdigest.
    destruct (sha512 platform) as [| |?| |?|hex]; try discriminate.
    injection Hdigest as <-. exists hex. split; reflexivity.
  - intros H256 H512. rewrite H256, H512 in Hdigest. cbn in Hdigest.
    injection Hdigest as <-. reflexivity.
Qed.

Lemma download_integrity_option_witness :
  exists hex,
    sha256 checked_entry = JStr hex
    /\ JStr "sha256-47DEQpj8HBSa+/TImW+5JCeuQeRkm5NMpJWZG3hSuFU="
       = JStr ("sha256-" +:+ base64 (hex_decode hex)).
Proof.
  assert (He : In (RequestPipePutStream "https://fallback.com/x.tar.gz"
                     "/cache" "xpm:binaries:x.tar.gz"
                     {| opts_integrity :=
                          JStr ("sha256-47DEQpj8HBSa+/TImW+5JCeuQeRkm5N"
                                  +:+ "MpJWZG3hSuFU=") |})
                  (fst (downloadBinaries rejecting_world "/pkg" "/cache"))).
  { vm_compute. repeat (first [left; reflexivity | right]). }
  destruct (download_integrity_option rejecting_world "/pkg" "/cache"
              (sample_binaries (JStr "https://fallback.com/") (JNum 1)
                 checked_entry)
              checked_entry _ _ _ _ eq_refl He)
    as [H256 _].
  apply H256. reflexivity.
Defined.

(** X13: the cache is asked about one key only, under the cache path
    given: [xpm:binaries:] followed by the file name of the entry. The
    key does not depend on the URL or on the version of the package. *)
Theorem cache_key_from_fileName (w : world) (packagePath cachePath : string)
    (cachePath' key : string) :
  In (CacheGetInfo cachePath' key)
     (fst (downloadBinaries w packagePath cachePath)) ->
  exists b platform,
    resolvePlatform w = Some (b, platform)
    /\ cachePath' = cachePath
    /\ key = "xpm:binaries:" +:+ to_string (fileName platform).
Proof.
  intros He.
  destruct (resolvePlatform w) as [[b platform]|] eqn:Hres.
  2:{ destruct (downloadBinaries_unresolved w packagePath cachePath Hres)
        as [message Hrun].
      rewrite Hrun in He. destruct He as [|[|[]]]; discriminate. }
  exists b, platform. split; [reflexivity|].
  run_shapes w packagePath cachePath b platform Hres.
  1-4: rewrite Hrun in He; cbn [fst In] in He;
    repeat (destruct He as [He|He]; [discriminate He|]); destruct He.
  pose proof (ensureCached_outcomes w cachePath
                ("xpm:binaries:" +:+ to_string (fileName platform))
                (with_slash base +:+ to_string (fileName platform)) digest)
    as (Hkey & _).
  cbn zeta in *.
  destruct (ensureCached w cachePath _ _ digest) as [t c].
  cbn [fst snd] in *.
  destruct c as [entry|err| |err2]; rewrite Hrun in He; cbn [fst app In] in He;
    repeat (destruct He as [He|He]; [discriminate He|]); eauto.
  apply in_app_or in He as [He|He]; [eauto|].
  pose proof (extract_outcomes w b platform
                (path_join [packagePath; folder]) entry)
    as (_ & _ & _ & Hnone & _).
  destruct (Hnone _ _ He).
Qed.

Lemma cache_key_from_fileName_witness :
  exists b platform,
    resolvePlatform rejecting_world = Some (b, platform)
    /\ "/cache" = "/cache"
    /\ "xpm:binaries:x.tar.gz"
       = "xpm:binaries:" +:+ to_string (fileName platform).
Proof.
  apply (cache_key_from_fileName rejecting_world "/pkg" "/cache"
           "/cache" "xpm:binaries:x.tar.gz").
  vm_compute. repeat (first [left; reflexivity | right]).
Defined.

(** X14: when the download completes (the promise resolves, on an
    ['integrity'] or a ['close'] event) and the cache still has no entry
    for the archive, [downloadBinaries] ends with the 'Download failed.'
    error of the INPUT class, and the destination is neither removed nor
    extracted to. *)
Theorem unrecorded_download_fails (w : world) (packagePath cachePath : string)
    (ev : stream_event) (rest : list stream_event) :
  existsb is_download (fst (downloadBinaries w packagePath cachePath)) = true ->
  download_events w = ev :: rest ->
  (ev = PipeClose \/ exists value, ev = PutIntegrity value) ->
  get_info_second w = Ok None ->
  snd (downloadBinaries w packagePath cachePath)
    = Throw (CliError "Download failed." ERROR_INPUT)
  /\ (forall p, ~ In (Rimraf p) (fst (downloadBinaries w packagePath cachePath)))
  /\ (forall i o s,
        ~ In (Decompress i o s)
             (fst (downloadBinaries w packagePath cachePath))).
Proof.
  intros Hdown Hev Hkind Hsecond.
  apply existsb_exists in Hdown as (e & He & Hd).
  destruct (resolvePlatform w) as [[b platform]|] eqn:Hres.
  2:{ destruct (downloadBinaries_unresolved w packagePath cachePath Hres)
        as [message Hrun].
      rewrite Hrun in He. destruct He as [<-|[<-|[]]]; discriminate. }
  run_shapes w packagePath cachePath b platform Hres.
  1-4: rewrite Hrun in He; cbn [fst In] in He;
    repeat (destruct He as [<-|He]; [discriminate Hd|]); destruct He.
  pose proof (ensureCached_outcomes w cachePath
                ("xpm:binaries:" +:+ to_string (fileName platform))
                (with_slash base +:+ to_string (fileName platform)) digest)
    as (_ & _ & Hfirst & _ & _ & _ & Hnodec).
  pose proof (ensureCached_spec w cachePath
                ("xpm:binaries:" +:+ to_string (fileName platform))
                (with_slash base +:+ to_string (fileName platform)) digest)
    as (Hnorim & _).
  pose proof (ensureCached_download w cachePath
                ("xpm:binaries:" +:+ to_string (fileName platform))
                (with_slash base +:+ to_string (fileName platform)) digest)
    as Hdownload.
  cbn zeta in *.
  destruct (ensureCached w cachePath _ _ digest) as [t c].
  cbn [fst snd] in *.
  assert (Hnone : get_info_first w = Ok None).
  { destruct c as [entry|err| |err2]; rewrite Hrun in He; cbn [fst app In] in He;
      repeat (destruct He as [<-|He]; [discriminate Hd|]); eauto.
    apply in_app_or in He as [He|He]; [eauto|].
    pose proof (extract_spec w b platform
                  (path_join [packagePath; folder]) entry) as (Hnodl & _).
    cbn zeta in Hnodl.
    assert (existsb is_download
              (fst (extract w b platform
                      (path_join [packagePath; folder]) entry)) = true)
      by (apply existsb_exists; exists e; split; assumption).
    congruence. }
  destruct (Hdownload Hnone) as (_ & Hfails & _).
  assert (Hc : c = Throw (CliError "Download failed." ERROR_INPUT)).
  { apply Hfails; [|exact Hsecond]. exists ev, rest. auto. }
  subst c. rewrite Hrun. cbn [fst snd app].
  split; [reflexivity|]. split.
  - intros p Hp. cbn [In] in Hp.
    repeat (destruct Hp as [Hp|Hp]; [discriminate Hp|]).
    rewrite forallb_forall in Hnorim. specialize (Hnorim _ Hp). discriminate.
  - intros i o s0 Hp. cbn [In] in Hp.
    repeat (destruct Hp as [Hp|Hp]; [discriminate Hp|]).
    exact (Hnodec _ _ _ Hp).
Qed.

Lemma unrecorded_download_fails_witness :
  snd (downloadBinaries
         (sample_world
            (sample_binaries (JStr "https://fallback.com/") (JNum 1)
               sample_entry)
            None [PutIntegrity "sha256-47DEQpj8"] None)
         "/pkg" "/cache")
  = Throw (CliError "Download failed." ERROR_INPUT).
Proof.
  apply (unrecorded_download_fails
           (sample_world
              (sample_binaries (JStr "https://fallback.com/") (JNum 1)
                 sample_entry)
              None [PutIntegrity "sha256-47DEQpj8"] None)
           "/pkg" "/cache" (PutIntegrity "sha256-47DEQpj8") []);
    [reflexivity|reflexivity|right; eexists; reflexivity|reflexivity].
Defined.

(** X15: every error [downloadBinaries] throws to its caller is one of:
    the three INPUT errors (missing [baseUrl], missing [fileName],
    'Download failed.'), a TypeError on a malformed manifest, or the
    rejection of a cache query, of the removal or of the extraction,
    which is passed on as it is.  An error of the request itself is not
    among them: no handler is registered on the request (line 253
    registers on what [pipe] returns, the cache-write stream), so it is
    an uncaught exception, which no [catch] of the function or of its
    caller sees; the run ends so exactly when the archive is downloaded
    and the first event of the download is such an error. *)
Theorem thrown_errors (w : world) (packagePath cachePath : string)
    (e : js_error) :
  let run := downloadBinaries w packagePath cachePath in
  (snd run = Throw e ->
   e = CliError "Missing xpack.binaries.baseUrl" ERROR_INPUT
   \/ e = CliError ("Missing xpack.binaries.platform[" +:+ platformKey w
                      +:+ "].fileName") ERROR_INPUT
   \/ e = CliError "Download failed." ERROR_INPUT
   \/ e = TypeError
   \/ exists what,
        e = ExternalError what
        /\ (get_info_first w = Failed what \/ get_info_second w = Failed what
            \/ rimraf_result w = Failed what
            \/ decompress_result w = Failed what))
  /\ (snd run = Uncaught e ->
      exists what rest,
        e = ExternalError what
        /\ existsb is_download (fst run) = true
        /\ download_events w = TransportError what :: rest)
  /\ (forall what rest,
        existsb is_download (fst run) = true ->
        download_events w = TransportError what :: rest ->
        snd run = Uncaught (ExternalError what)
        /\ (forall p, ~ In (Rimraf p) (fst run))
        /\ (forall i o s, ~ In (Decompress i o s) (fst run))).
Proof.
  cbn zeta.
  destruct (resolvePlatform w) as [[b platform]|] eqn:Hres.
  2:{ destruct (downloadBinaries_unresolved w packagePath cachePath Hres)
        as [message Hrun]. rewrite Hrun. cbn [fst snd existsb is_download].
      split; [|split]; [discriminate|discriminate|intros ? ? [=]]. }
  run_shapes w packagePath cachePath b platform Hres.
  1-4: rewrite Hrun; cbn [fst snd existsb is_download orb];
    (split; [|split];
     [ intros Hthrow;
       first [discriminate Hthrow|injection Hthrow as <-; auto 6]
     | discriminate
     | intros ? ? [=] ]).
  pose proof (ensureCached_outcomes w cachePath
                ("xpm:binaries:" +:+ to_string (fileName platform))
                (with_slash base +:+ to_string (fileName platform)) digest)
    as (_ & _ & Hdown & _ & Hext & _ & Hnodec).
  pose proof (ensureCached_spec w cachePath
                ("xpm:binaries:" +:+ to_string (fileName platform))
                (with_slash base +:+ to_string (fileName platform)) digest)
    as (Hnorim & _ & Hkind & _).
  pose proof (ensureCached_uncaught w cachePath
                ("xpm:binaries:" +:+ to_string (fileName platform))
                (with_slash base +:+ to_string (fileName platform)) digest)
    as (Hunc & Htransport).
  pose proof (ensureCached_download w cachePath
                ("xpm:binaries:" +:+ to_string (fileName platform))
                (with_slash base +:+ to_string (fileName platform)) digest)
    as Hdownload.
  cbn zeta in *.
  destruct (ensureCached w cachePath _ _ digest) as [t c].
  cbn [fst snd] in *.
  split; [|split].
  - intros Hthrow.
    destruct c as [entry|err| |err2]; rewrite Hrun in Hthrow;
      cbn [snd] in Hthrow; [| |discriminate..].
    + pose proof (extract_spec w b platform
                    (path_join [packagePath; folder]) entry)
        as (_ & Hkind' & _).
      pose proof (extract_outcomes w b platform
                    (path_join [packagePath; folder]) entry)
        as (_ & Hext' & _).
      cbn zeta in *. destruct (Hkind' _ Hthrow) as [what ->].
      do 4 right. exists what. split; [reflexivity|].
      destruct (Hext' _ Hthrow); auto.
    + injection Hthrow as <-.
      destruct (Hkind _ eq_refl) as [->|[what ->]]; [auto|].
      do 4 right. exists what. split; [reflexivity|].
      destruct (Hext _ eq_refl); auto.
  - intros Hthrow.
    destruct c as [entry|err| |err2]; rewrite Hrun in Hthrow;
      cbn [snd] in Hthrow; try discriminate.
    + destruct (extract_not_uncaught _ _ _ _ _ _ Hthrow).
    + injection Hthrow as <-.
      destruct (Hunc _ eq_refl) as (what & rest & -> & Hfirst & Hev).
      exists what, rest. split; [reflexivity|]. split; [|exact Hev].
      rewrite Hrun. cbn [fst]. rewrite existsb_app.
      destruct (Hdownload Hfirst) as (-> & _).
      cbn [existsb is_download orb]. reflexivity.
  - intros what rest Hdl Hev.
    apply existsb_exists in Hdl as (x & Hx & Hd).
    assert (Hnone : get_info_first w = Ok None).
    { destruct c as [entry|err| |err2]; rewrite Hrun in Hx;
        cbn [fst app In] in Hx;
        repeat (destruct Hx as [<-|Hx]; [discriminate Hd|]); eauto.
      apply in_app_or in Hx as [Hx|Hx]; [eauto|].
      pose proof (extract_spec w b platform
                    (path_join [packagePath; folder]) entry) as (Hnodl & _).
      cbn zeta in Hnodl.
      assert (existsb is_download
                (fst (extract w b platform
                        (path_join [packagePath; folder]) entry)) = true)
        by (apply existsb_exists; exists x; split; assumption).
      congruence. }
    rewrite (Htransport _ _ Hnone Hev) in Hrun. rewrite Hrun.
    cbn [fst snd app].
    split; [reflexivity|]. split.
    + intros p Hp. cbn [In] in Hp.
      repeat (destruct Hp as [Hp|Hp]; [discriminate Hp|]).
      rewrite forallb_forall in Hnorim. specialize (Hnorim _ Hp).
      discriminate.
    + intros i o s0 Hp. cbn [In] in Hp.
      repeat (destruct Hp as [Hp|Hp]; [discriminate Hp|]).
      exact (Hnodec _ _ _ Hp).
Qed.

Lemma thrown_errors_witness :
  (CliError "Download failed." ERROR_INPUT
     = CliError "Missing xpack.binaries.baseUrl" ERROR_INPUT
   \/ CliError "Download failed." ERROR_INPUT
      = CliError ("Missing xpack.binaries.platform["
                    +:+ platformKey rejecting_world +:+ "].fileName")
          ERROR_INPUT
   \/ CliError "Download failed." ERROR_INPUT
      = CliError "Download failed." ERROR_INPUT
   \/ CliError "Download failed." ERROR_INPUT = TypeError
   \/ exists what,
        CliError "Download failed." ERROR_INPUT = ExternalError what
        /\ (get_info_first rejecting_world = Failed what
            \/ get_info_second rejecting_world = Failed what
            \/ rimraf_result rejecting_world = Failed what
            \/ decompress_result rejecting_world = Failed what))
  /\ snd (downloadBinaries transport_failing_world "/pkg" "/cache")
     = Uncaught (ExternalError "ENOTFOUND").
Proof.
  split.
  - apply (thrown_errors rejecting_world "/pkg" "/cache"
             (CliError "Download failed." ERROR_INPUT)).
    reflexivity.
  - apply (thrown_errors transport_failing_world "/pkg" "/cache"
             (ExternalError "ENOTFOUND"))
      with (rest := @nil stream_event); reflexivity.
Defined.

(** X16: the hint about the antivirus is logged only on [win32], and
    there it is logged whenever the download is made and ends with an
    error; the error thrown is the same on every platform. *)
Theorem antivirus_hint_on_win32 (w : world) (packagePath cachePath : string) :
  let hint := Log Info ("If you have an aggressive antivirus, try to"
                          +:+ " reconfigure it, or temporarily disable it.") in
  let run := downloadBinaries w packagePath cachePath in
  (In hint (fst run) -> process_platform w = "win32")
  /\ (forall ev rest what,
        existsb is_download (fst run) = true ->
        download_events w = ev :: rest ->
        ev = PutError what \/ ev = PipeError what ->
        snd run = Throw (CliError "Download failed." ERROR_INPUT)
        /\ (process_platform w = "win32" -> In hint (fst run))).
Proof.
  cbn zeta.
  destruct (resolvePlatform w) as [[b platform]|] eqn:Hres.
  2:{ destruct (downloadBinaries_unresolved w packagePath cachePath Hres)
        as [message ->].
      split; [intros [|[|[]]]; discriminate|discriminate]. }
  run_shapes w packagePath cachePath b platform Hres.
  1-4: rewrite Hrun; cbn [fst In];
    (split; [intros Hin; repeat (destruct Hin as [Hin|Hin];
                                 [discriminate Hin|]); destruct Hin
            |discriminate]).
  pose proof (ensureCached_outcomes w cachePath
                ("xpm:binaries:" +:+ to_string (fileName platform))
                (with_slash base +:+ to_string (fileName platform)) digest)
    as (_ & _ & Hfirst & Hhint & _).
  pose proof (ensureCached_download w cachePath
                ("xpm:binaries:" +:+ to_string (fileName platform))
                (with_slash base +:+ to_string (fileName platform)) digest)
    as Hdownload.
  cbn zeta in *.
  destruct (ensureCached w cachePath _ _ digest) as [t c].
  cbn [fst snd] in *.
  split.
  - intros Hin.
    destruct c as [entry|err| |err2]; rewrite Hrun in Hin; cbn [fst app In] in Hin;
      repeat (destruct Hin as [Hin|Hin]; [discriminate Hin|]); auto.
    apply in_app_or in Hin as [Hin|Hin]; [auto|].
    pose proof (extract_outcomes w b platform
                  (path_join [packagePath; folder]) entry)
      as (_ & _ & _ & _ & Hnohint & _).
    destruct (Hnohint Hin).
  - intros ev rest what Hdown Hev Hkind.
    apply existsb_exists in Hdown as (e & He & Hd).
    assert (Hnone : get_info_first w = Ok None).
    { destruct c as [entry|err| |err2]; rewrite Hrun in He; cbn [fst app In] in He;
        repeat (destruct He as [<-|He]; [discriminate Hd|]); eauto.
      apply in_app_or in He as [He|He]; [eauto|].
      pose proof (extract_spec w b platform
                    (path_join [packagePath; folder]) entry) as (Hnodl & _).
      cbn zeta in Hnodl.
      assert (existsb is_download
                (fst (extract w b platform
                        (path_join [packagePath; folder]) entry)) = true)
        by (apply existsb_exists; exists e; split; assumption).
      congruence. }
    destruct (Hdownload Hnone) as (_ & _ & Hfails).
    destruct Hfails as [Hc Hlogged]; [exists ev, rest, what; auto|].
    subst c. rewrite Hrun. cbn [fst snd].
    split; [reflexivity|].
    intros Hwin. apply in_or_app. right. auto.
Qed.

Lemma antivirus_hint_on_win32_witness :
  snd (downloadBinaries windows_rejecting_world "/pkg" "/cache")
  = Throw (CliError "Download failed." ERROR_INPUT)
  /\ In (Log Info ("If you have an aggressive antivirus, try to"
                     +:+ " reconfigure it, or temporarily disable it."))
        (fst (downloadBinaries windows_rejecting_world "/pkg" "/cache")).
Proof.
  destruct (antivirus_hint_on_win32 windows_rejecting_world "/pkg" "/cache")
    as [_ Hlogged].
  destruct (Hlogged (PipeError "ECONNRESET") [] "ECONNRESET"
              eq_refl eq_refl (or_intror eq_refl)) as [Hfails Hhint].
  split; [exact Hfails|apply Hhint; reflexivity].
Defined.



(** The calls of [extract] when the removal succeeds. *)
Lemma extract_trace (w : world) (b : binaries) (platform : platform_entry)
    (contentFolderPath : fs_path) (cacheInfo : cache_entry) :
  rimraf_result w = Ok tt ->
  exists tail,
    fst (extract w b platform contentFolderPath cacheInfo)
    = ([Log Trace ("skip " +:+ to_string (skipLevels b) +:+ " levels");
        LogPath Trace "rimraf " contentFolderPath;
        Rimraf contentFolderPath;
        Log Trace ("ipath " +:+ path cacheInfo);
        Log Info ("Extracting '" +:+ to_string (fileName platform)
                    +:+ "'...");
        Decompress (path cacheInfo) contentFolderPath (skipLevels b)]
         ++ tail)%list.
Proof.
  intros Hrimraf. unfold extract. rewrite Hrimraf.
  cbn [await bind emit ret throw app fst snd].
  destruct (decompress_result w) as [n|what|];
    cbn [await bind emit ret throw app fst snd]; eexists; reflexivity.
Qed.

(** X18: an archive is extracted only after the destination has been
    removed, and removed with success: in the trace the removal of the
    destination comes before the extraction into it. The destination is
    [destination] of the manifest ([.content] when it has none) under the
    package folder, and the strip depth is the skip depth. *)
Theorem extraction_follows_removal (w : world)
    (packagePath cachePath : string)
    (input : string) (output : fs_path) (strip : jsval) :
  In (Decompress input output strip)
     (fst (downloadBinaries w packagePath cachePath)) ->
  exists b platform folder before after,
    resolvePlatform w = Some (b, platform)
    /\ js_or (destination b) (JStr ".content") = JStr folder
    /\ output = path_join [packagePath; folder]
    /\ strip = skipLevels b
    /\ rimraf_result w = Ok tt
    /\ fst (downloadBinaries w packagePath cachePath)
       = (before ++ Rimraf output :: after)%list
    /\ In (Decompress input output strip) after.
Proof.
  intros He.
  destruct (resolvePlatform w) as [[b platform]|] eqn:Hres.
  2:{ destruct (downloadBinaries_unresolved w packagePath cachePath Hres)
        as [message Hrun].
      rewrite Hrun in He. destruct He as [|[|[]]]; discriminate. }
  exists b, platform.
  run_shapes w packagePath cachePath b platform Hres.
  1-4: rewrite Hrun in He; cbn [fst In] in He;
    repeat (destruct He as [He|He]; [discriminate He|]); destruct He.
  pose proof (ensureCached_outcomes w cachePath
                ("xpm:binaries:" +:+ to_string (fileName platform))
                (with_slash base +:+ to_string (fileName platform)) digest)
    as (_ & _ & _ & _ & _ & _ & Hnodec).
  cbn zeta in *.
  destruct (ensureCached w cachePath _ _ digest) as [t c].
  cbn [fst snd] in *.
  destruct c as [entry|err| |err2]; rewrite Hrun in *; cbn [fst app In] in He;
    repeat (destruct He as [He|He]; [discriminate He|]);
    try (destruct (Hnodec _ _ _ He)).
  apply in_app_or in He as [He|He]; [destruct (Hnodec _ _ _ He)|].
  pose proof (extract_outcomes w b platform
                (path_join [packagePath; folder]) entry) as (Hdec & _).
  destruct (Hdec _ _ _ He) as (-> & -> & -> & Hrimraf & _).
  destruct (extract_trace w b platform (path_join [packagePath; folder])
              entry Hrimraf) as [tail Htrace].
  exists folder.
  eexists (_ :: _ :: _ :: (t ++ [_; _])%list), (_ :: _ :: _ :: tail).
  repeat (split; [first [reflexivity|assumption]|]).
  split.
  - cbn [fst]. rewrite Htrace. cbn [app]. do 3 f_equal.
    rewrite <- List.app_assoc. reflexivity.
  - cbn [In]. auto.
Qed.

Lemma extraction_follows_removal_witness :
  exists b platform folder before after,
    resolvePlatform
      (sample_world
         (sample_binaries (JStr "https://fallback.com/") (JNum 1)
            sample_entry)
         (Some sample_cached) [] None) = Some (b, platform)
    /\ js_or (destination b) (JStr ".content") = JStr folder
    /\ path_join ["/pkg"; ".content"] = path_join ["/pkg"; folder]
    /\ JNum 1 = skipLevels b
    /\ rimraf_result
         (sample_world
            (sample_binaries (JStr "https://fallback.com/") (JNum 1)
               sample_entry)
            (Some sample_cached) [] None) = Ok tt
    /\ fst (downloadBinaries
              (sample_world
                 (sample_binaries (JStr "https://fallback.com/") (JNum 1)
                    sample_entry)
                 (Some sample_cached) [] None)
              "/pkg" "/cache")
       = (before ++ Rimraf (path_join ["/pkg"; ".content"]) :: after)%list
    /\ In (Decompress "/cache/content/ab/cd" (path_join ["/pkg"; ".content"])
             (JNum 1)) after.
Proof.
  apply (extraction_follows_removal
           (sample_world
              (sample_binaries (JStr "https://fallback.com/") (JNum 1)
                 sample_entry)
              (Some sample_cached) [] None)
           "/pkg" "/cache" "/cache/content/ab/cd"
           (path_join ["/pkg"; ".content"]) (JNum 1)).
  vm_compute. repeat (first [left; reflexivity | right]).
Defined.

End PipelineMoreFacts.
